(** * satellite_populate.api: the API populator, embedded and verified

    A shallow embedding of [src/satellite_populate/api.py] (class
    [APIPopulator]).  The populator object is a record of its mutable
    attributes; every method is a function in a state-and-exception monad
    over that record, so that a mutation made before an exception is raised
    is still visible to the caller, as in Python.  The Nailgun client is a
    black box: a record of four operations over an abstract remote world.
    Each operation the populator issues is also appended to a trace of
    requests, so that statements about which calls were made, and in which
    order, can be expressed. *)

From stdpp Require Import base option strings list gmap fin_maps.
From Stdlib Require Import ZArith.

Local Open Scope Z_scope.
Local Open Scope string_scope.
Local Open Scope list_scope.

(** ** Python values *)

(** The scalars that occur as values of an action dictionary. *)
Inductive pyval :=
| VNone
| VBool (b : bool)
| VInt (z : Z)
| VStr (s : string).

#[global] Instance pyval_eq_dec : EqDecision pyval := ltac:(solve_decision).

(** Python truthiness: what [if v:] and [not v] test. *)
Definition truthy (v : pyval) : bool :=
  match v with
  | VNone => false
  | VBool b => b
  | VInt z => negb (Z.eqb z 0)
  | VStr s => negb (String.eqb s EmptyString)
  end.

(** [action_data]: the declarative description of one action, a dict. *)
Abbreviation ActionData := (gmap string pyval).
(** [rendered_action_data]: field name to concrete value, a dict. *)
Abbreviation RenderedActionData := (gmap string pyval).
(** [search]: the rendered search predicate. *)
Abbreviation SearchPredicate := string.

(** [d.get(k)]: [None] when the key is absent. *)
Definition dict_get (d : gmap string pyval) (k : string) : pyval :=
  default VNone (d !! k).

(** [d.get(k, dflt)]. *)
Definition dict_get_default (d : gmap string pyval) (k : string) (dflt : pyval) : pyval :=
  default dflt (d !! k).

(** [list(d.keys())]. *)
Definition dict_keys (d : gmap string pyval) : list string :=
  (map_to_list d).*1.

(** ** Nailgun entities *)

(** An entity class of [nailgun.entities]: its [__name__], and whether it
    is a subclass of [EntitySearchMixin]. *)
Record Model := mkModel {
  model_name : string;
  model_searchable : bool
}.

#[global] Instance Model_eq_dec : EqDecision Model := ltac:(solve_decision).

(** An entity object: its class, its [id] attribute ([VNone] when it was
    not given) and the other field values it was constructed with. *)
Record Entity := mkEntity {
  ent_model : Model;
  ent_id : pyval;
  ent_fields : gmap string pyval
}.

(** ** Exceptions *)

(** The exception classes the code distinguishes or raises itself.
    [HTTPError] is [requests.exceptions.HTTPError] as the transport raises
    it from a response: it carries the text of [str(e.response.content)].
    [RequestException] stands for the other exceptions of [requests]
    (ConnectionError, Timeout, ...), raised before any response was
    received: they have the attribute [response], and it is [None].
    The remaining classes have no attribute [response].  Every
    constructor but [HTTPError] is an [Exception] that is not an
    [HTTPError]. *)
Inductive exn :=
| HTTPError (msg : string) (response_content : string)
| RequestException (cls : string) (msg : string)
| RuntimeError (msg : string)
| TypeError (msg : string)
| AttributeError (msg : string)
| KeyError (key : string)
| AmbiguousMatchError (msg : string)
| OtherError (cls : string) (msg : string).

(** [isinstance(e, HTTPError)]: which [except] clause takes [e]. *)
Definition is_HTTPError (e : exn) : bool :=
  match e with HTTPError _ _ => true | _ => false end.

(** [str(e)]. *)
Definition str_exn (e : exn) : string :=
  match e with
  | HTTPError msg _ => msg
  | RequestException _ msg => msg
  | RuntimeError msg => msg
  | TypeError msg => msg
  | AttributeError msg => msg
  | KeyError key => "'" +:+ key +:+ "'"
  | AmbiguousMatchError msg => msg
  | OtherError _ msg => msg
  end.

(** The last argument of [add_and_log_error]: an exception, or a plain
    message string. *)
Inductive error_info :=
| ErrExc (e : exn)
| ErrStr (s : string).

(** What [hasattr(e, 'response')] and [e.response] find: no such
    attribute, the value [None], or a response with the text of its
    content. *)
Inductive response_attribute :=
| NoAttribute
| ResponseNone
| Response (content : string).

(** ** The populator object *)

Record ErrorRecord := mkErrorRecord {
  err_search : SearchPredicate;
  err_message : string;
  err_rendered_action_data : RenderedActionData;
  err_action_data : ActionData
}.

(** Arguments of a log call; [logging] formats them lazily. *)
Inductive log_arg :=
| LStr (s : string)
| LVal (v : pyval)
| LModel (m : Model)
| LActionData (d : ActionData).

Inductive log_record :=
| LogError (message : string)
| LogInfo (fmt : string) (args : list log_arg).

(** The calls made to the remote API, in the shape Nailgun offers them:
    a search on a class, and [create], [update(fields)] and [delete] on an
    entity object. *)
Inductive Request :=
| ReqSearch (m : Model) (search : SearchPredicate)
| ReqCreate (e : Entity)
| ReqUpdate (e : Entity) (fields : list string)
| ReqDelete (e : Entity).

(** What a call yields: a value, or a raised exception. *)
Inductive Outcome (A : Type) :=
| Return (a : A)
| Raise (e : exn).
#[global] Arguments Return {A} a.
#[global] Arguments Raise {A} e.

(** The Nailgun client, a black box over the state of the remote system:
    [model().search(...)], [entity.create()], [entity.update(fields)] and
    [entity.delete()].  Every operation may raise and may change the
    remote state. *)
Record Nailgun (World : Type) := mkNailgun {
  ng_search : Model → SearchPredicate → World → Outcome (list Entity) * World;
  ng_create : Entity → World → Outcome Entity * World;
  ng_update : Entity → list string → World → Outcome Entity * World;
  ng_delete : Entity → World → Outcome unit * World
}.
#[global] Arguments ng_search {World} _ _ _ _.
#[global] Arguments ng_create {World} _ _ _.
#[global] Arguments ng_update {World} _ _ _ _.
#[global] Arguments ng_delete {World} _ _ _.

(** What the methods use from outside the class: the client, the
    attributes of the module [nailgun.entities], Python's [str] on an
    action dictionary, and the key under which the registry files an
    action. *)
Record Env (World : Type) := mkEnv {
  nailgun : Nailgun World;
  entities : gmap string Model;
  str_action_data : ActionData → string;
  registry_key : ActionData → string
}.
#[global] Arguments nailgun {World} _.
#[global] Arguments entities {World} _.
#[global] Arguments str_action_data {World} _ _.
#[global] Arguments registry_key {World} _ _.

Section Populator.

(** The state of the remote system. *)
Context {World : Type}.

(** The attributes of a populator ([self]), the remote world it talks to,
    and the trace of the requests it has issued. *)
Record Populator := mkPopulator {
  mode : string;
  logger : list log_record;
  validation_errors : list ErrorRecord;
  registry : gmap string (option Entity);
  found : list Entity;
  created : list Entity;
  requests : list Request;
  world : World
}.

(** ** The monad of methods *)

Definition M (A : Type) : Type := Populator → Outcome A * Populator.

Definition ret {A} (a : A) : M A := λ s, (Return a, s).
Definition raise {A} (e : exn) : M A := λ s, (Raise e, s).
Definition bind {A B} (m : M A) (k : A → M B) : M B :=
  λ s, match m s with
       | (Return a, s') => k a s'
       | (Raise e, s') => (Raise e, s')
       end.

(** [try: body / except ... as e: handler e / else: orelse]. *)
Definition try_except {A B} (body : M A) (handler : exn → M B) (orelse : A → M B) : M B :=
  λ s, match body s with
       | (Return a, s') => orelse a s'
       | (Raise e, s') => handler e s'
       end.

(** A state update that cannot fail. *)
Definition modify (f : Populator → Populator) : M unit := λ s, (Return tt, f s).

End Populator.

#[global] Arguments Populator : clear implicits.
#[global] Arguments M : clear implicits.

Declare Scope py_scope.
Delimit Scope py_scope with py.
Notation "'let*' x ':=' m 'in' k" := (bind m (λ x, k))
  (at level 10, x pattern, m at level 100, k at level 200) : py_scope.
Notation "m ';;' k" := (bind m (λ _, k))
  (at level 100, k at level 200, right associativity) : py_scope.

(** ** The methods of [APIPopulator] *)

Section Methods.

Context {World : Type} (env : Env World).

Local Open Scope py_scope.

(** *** Attribute updates *)

(** [self.logger] receives a record. *)
Definition add_log (r : log_record) (s : Populator World) : Populator World :=
  mkPopulator (mode s) (logger s ++ [r]) (validation_errors s)
    (registry s) (found s) (created s) (requests s) (world s).

(** [self.validation_errors.append(r)]. *)
Definition add_error (r : ErrorRecord) (s : Populator World) : Populator World :=
  mkPopulator (mode s) (logger s) (validation_errors s ++ [r])
    (registry s) (found s) (created s) (requests s) (world s).

(** [self.found.append(e)]. *)
Definition add_found (e : Entity) (s : Populator World) : Populator World :=
  mkPopulator (mode s) (logger s) (validation_errors s)
    (registry s) (found s ++ [e]) (created s) (requests s) (world s).

(** [self.created.append(e)]. *)
Definition add_created (e : Entity) (s : Populator World) : Populator World :=
  mkPopulator (mode s) (logger s) (validation_errors s)
    (registry s) (found s) (created s ++ [e]) (requests s) (world s).

(** [self.registry[k] = v]. *)
Definition set_registry (k : string) (v : option Entity) (s : Populator World)
    : Populator World :=
  mkPopulator (mode s) (logger s) (validation_errors s)
    (<[k := v]> (registry s)) (found s) (created s) (requests s) (world s).

(** A request has been sent and the remote world has become [w]. *)
Definition after_call (r : Request) (w : World) (s : Populator World)
    : Populator World :=
  mkPopulator (mode s) (logger s) (validation_errors s)
    (registry s) (found s) (created s) (requests s ++ [r]) w.

Definition log (r : log_record) : M World unit := modify (add_log r).
Definition append_validation_error (r : ErrorRecord) : M World unit := modify (add_error r).
Definition append_found (e : Entity) : M World unit := modify (add_found e).
Definition append_created (e : Entity) : M World unit := modify (add_created e).

(** One call to the client: the request joins the trace and the remote
    world moves on, whether the call returns or raises. *)
Definition call {A} (r : Request) (op : World → Outcome A * World) : M World A :=
  λ s, let '(o, w) := op (world s) in (o, after_call r w s).

(** *** Methods inherited from [BasePopulator] *)

(** Modelled from the spec: [get_search_result] is a method of
    [BasePopulator], whose module is not among the sources.  Section 4.6:
    the predicate is executed against the model's search capability; with
    [unique] set (as at every call site of this class) more than one match
    is an error that is propagated like any other search failure, no match
    is an explicit absence, and the single match is returned.  The spec
    gives [silent_errors] no effect here. *)
Definition get_search_result (model : Model) (search : SearchPredicate)
    (silent_errors : pyval) : M World (option Entity) :=
  let* result := call (ReqSearch model search) (ng_search (nailgun env) model search) in
  match result with
  | [] => ret None
  | [e] => ret (Some e)
  | _ :: _ :: _ => raise (AmbiguousMatchError "search is not unique")
  end.

(** Modelled from the spec: [add_to_registry] is a method of
    [BasePopulator], whose module is not among the sources.  Sections 3
    and 4.1: the registry maps the action's key to the resolved entity, or
    to an explicit absence. *)
Definition add_to_registry (action_data : ActionData) (result : option Entity) : M World unit :=
  modify (set_registry (registry_key env action_data) result).

(** *** [add_and_log_error] *)

(** [if e]: an exception object is true, a string is true unless empty. *)
Definition error_info_truthy (e : error_info) : bool :=
  match e with
  | ErrExc _ => true
  | ErrStr s => negb (String.eqb s EmptyString)
  end.

Definition str_error_info (e : error_info) : string :=
  match e with
  | ErrExc x => str_exn x
  | ErrStr s => s
  end.

(** The attribute [response] of what was reported. *)
Definition response_of (e : error_info) : response_attribute :=
  match e with
  | ErrExc (HTTPError _ content) => Response content
  | ErrExc (RequestException _ _) => ResponseNone
  | _ => NoAttribute
  end.

(** [str(e.response.content)], where there is a response to read. *)
Definition response_content (e : error_info) : option string :=
  match response_of e with
  | Response content => Some content
  | _ => None
  end.

(** [e and hasattr(e, 'response')] holds and [e.response] is [None]:
    reading [e.response.content] raises. *)
Definition content_unreadable (e : option error_info) : bool :=
  match e with
  | Some x =>
      error_info_truthy x
      && match response_of x with ResponseNone => true | _ => false end
  | None => false
  end.

(** What reading [.content] of [None] raises. *)
Definition none_has_no_content : exn :=
  AttributeError "'NoneType' object has no attribute 'content'".

(** The message of lines 16 to 19, where line 19 can be evaluated. *)
Definition error_message_of (self_mode : string) (action_data : ActionData)
    (e : option error_info) : string :=
  let error_message :=
    self_mode +:+ ": "
      +:+ (match e with
           | Some x => if error_info_truthy x then str_error_info x else EmptyString
           | None => EmptyString
           end)
      +:+ " " +:+ str_action_data env action_data in
  match e with
  | Some x =>
      if error_info_truthy x then
        match response_content x with
        | Some content => error_message +:+ content
        | None => error_message
        end
      else error_message
  | None => error_message
  end.

Definition add_and_log_error (action_data : ActionData)
    (rendered_action_data : RenderedActionData) (search : SearchPredicate)
    (e : option error_info) : M World unit :=
  λ s,
    if content_unreadable e then raise none_has_no_content s
    else
      let error_message := error_message_of (mode s) action_data e in
      (log (LogError error_message);;
       append_validation_error
         {| err_search := search;
            err_message := error_message;
            err_rendered_action_data := rendered_action_data;
            err_action_data := action_data |}) s.

(** *** The CRUD handlers *)

(** The constructor call [model] applied to the unpacked fields, with no
    [id] keyword. *)
Definition construct (model : Model) (fields : RenderedActionData) : Entity :=
  {| ent_model := model; ent_id := VNone; ent_fields := fields |}.

(** The constructor call [model] applied to [id=entity_id] and the
    unpacked fields: Python refuses a keyword given twice. *)
Definition construct_with_id (model : Model) (entity_id : pyval)
    (fields : RenderedActionData) : M World Entity :=
  match fields !! "id" with
  | Some _ => raise (TypeError "got multiple values for keyword argument 'id'")
  | None => ret {| ent_model := model; ent_id := entity_id; ent_fields := fields |}
  end.

Definition action_create (rendered_action_data : RenderedActionData)
    (action_data : ActionData) (search : SearchPredicate) (model : Model)
    (silent_errors : pyval) : M World Entity :=
  let* result := get_search_result model search silent_errors in
  match result with
  | Some result =>
      log (LogInfo "create: Entity already exists: %s %s"
             [LStr (model_name model); LVal (ent_id result)]);;
      append_found result;;
      ret result
  | None =>
      let entity := construct model rendered_action_data in
      let* result := call (ReqCreate entity) (ng_create (nailgun env) entity) in
      log (LogInfo "create: Entity created: %s %s"
             [LStr (model_name model); LVal (ent_id result)]);;
      append_created result;;
      ret result
  end.

Definition action_update (rendered_action_data : RenderedActionData)
    (action_data : ActionData) (search : SearchPredicate) (model : Model)
    (silent_errors : pyval) : M World Entity :=
  let search_data := dict_get action_data "search_query" in
  let entity_id := dict_get action_data "id" in
  if negb (truthy entity_id) && negb (truthy search_data) then
    raise (RuntimeError "update: missing id or search_query")
  else
    let* entity_id :=
      if negb (truthy entity_id) then
        let* search_result := get_search_result model search silent_errors in
        match search_result with
        | None => raise (RuntimeError "update: Cannot find entity")
        | Some search_result => ret (ent_id search_result)
        end
      else ret entity_id in
    let* entity := construct_with_id model entity_id rendered_action_data in
    let fields := dict_keys rendered_action_data in
    call (ReqUpdate entity fields) (ng_update (nailgun env) entity fields);;
    log (LogInfo "update: %s %s" [LModel model; LVal entity_id]);;
    ret entity.

Definition action_delete (rendered_action_data : RenderedActionData)
    (action_data : ActionData) (search : SearchPredicate) (model : Model)
    (silent_errors : pyval) : M World unit :=
  let search_data := dict_get action_data "search_query" in
  let entity_id := dict_get action_data "id" in
  if negb (truthy entity_id) && negb (truthy search_data) then
    raise (RuntimeError "delete: missing id or search_query")
  else
    let* entity_id :=
      if negb (truthy entity_id) then
        let* search_result := get_search_result model search silent_errors in
        match search_result with
        | None => raise (RuntimeError "delete: Cannot find entity")
        | Some search_result => ret (ent_id search_result)
        end
      else ret entity_id in
    let entity := {| ent_model := model; ent_id := entity_id; ent_fields := ∅ |} in
    call (ReqDelete entity) (ng_delete (nailgun env) entity);;
    log (LogInfo "delete: %s %s" [LModel model; LVal entity_id]).

(** *** [populate] *)

(** [getattr(entities, action_data['model'])]. *)
Definition getattr_entities (action_data : ActionData) : Outcome Model :=
  match action_data !! "model" with
  | None => Raise (KeyError "model")
  | Some (VStr name) =>
      match entities env !! name with
      | Some model => Return model
      | None => Raise (AttributeError
                         ("module 'nailgun.entities' has no attribute '" +:+ name +:+ "'"))
      end
  | Some _ => Raise (TypeError "getattr(): attribute name must be string")
  end.

Definition resolve_model (action_data : ActionData) : M World Model :=
  λ s, (getattr_entities action_data, s).

(** [getattr(self, "action_{0}".format(action))(...)]: the three handlers
    of this class; what a method returns without a [return] is [None].
    Any other name is an attribute this class does not define. *)
Definition action_method (action : string) (rendered_action_data : RenderedActionData)
    (action_data : ActionData) (search : SearchPredicate) (model : Model)
    (silent_errors : pyval) : M World (option Entity) :=
  if String.eqb action "create" then
    let* r := action_create rendered_action_data action_data search model silent_errors in
    ret (Some r)
  else if String.eqb action "update" then
    let* r := action_update rendered_action_data action_data search model silent_errors in
    ret (Some r)
  else if String.eqb action "delete" then
    action_delete rendered_action_data action_data search model silent_errors;;
    ret None
  else
    raise (AttributeError
             ("'APIPopulator' object has no attribute 'action_" +:+ action +:+ "'")).

Definition populate (rendered_action_data : RenderedActionData)
    (action_data : ActionData) (search : SearchPredicate) (action : string) : M World unit :=
  let* model := resolve_model action_data in
  let silent_errors := dict_get_default action_data "silent_errors" (VBool false) in
  try_except
    (action_method action rendered_action_data action_data search model silent_errors)
    (λ e,
       if is_HTTPError e then
         add_and_log_error action_data rendered_action_data search (Some (ErrExc e))
       else
         add_and_log_error action_data rendered_action_data search (Some (ErrExc e));;
         if truthy silent_errors then ret tt else raise e)
    (λ result, add_to_registry action_data result).

(** *** [validate] *)

Definition validate (rendered_action_data : RenderedActionData)
    (action_data : ActionData) (search : SearchPredicate) (action : string) : M World unit :=
  let silent_errors := dict_get_default action_data "silent_errors" (VBool false) in
  if negb (String.eqb action "create" || String.eqb action "assertion")
     || truthy (dict_get action_data "skip_validation") then
    ret tt
  else
    let* model := resolve_model action_data in
    if negb (model_searchable model) then
      raise (TypeError (model_name model +:+ " not searchable"))
    else
      try_except
        (get_search_result model search silent_errors)
        (λ e,
           if is_HTTPError e then
             add_and_log_error action_data rendered_action_data search (Some (ErrExc e))
           else raise e)
        (λ result,
           match result with
           | Some result =>
               log (LogInfo "validate: Entity found: %s %s"
                      [LStr (model_name model); LVal (ent_id result)]);;
               append_found result;;
               add_to_registry action_data (Some result)
           | None =>
               log (LogInfo "validate: result not found for query %s %s"
                      [LStr (model_name model); LActionData action_data]);;
               add_to_registry action_data None;;
               add_and_log_error action_data rendered_action_data search
                 (Some (ErrStr "entity does not exist in the system"))
           end).

End Methods.

(** ** Vocabulary of the statements *)

(** [needle] occurs in [haystack]. *)
Definition contains (needle haystack : string) : Prop :=
  ∃ before after, haystack = before +:+ needle +:+ after.

Section Vocabulary.

Context {World : Type} (env : Env World).

(** The [silent_errors] flag of an action. *)
Definition silent_errors_of (action_data : ActionData) : pyval :=
  dict_get_default action_data "silent_errors" (VBool false).

(** The error record [add_and_log_error] files for an exception. *)
Definition error_record_for (action_data : ActionData)
    (rendered_action_data : RenderedActionData) (search : SearchPredicate) (x : exn)
    (s : Populator World) : ErrorRecord :=
  mkErrorRecord search
    (error_message_of env (mode s) action_data (Some (ErrExc x)))
    rendered_action_data action_data.

(** [validate] goes as far as the search: the action is a create or an
    assertion, validation is not skipped, and the model is searchable. *)
Definition validation_runs (action : string) (action_data : ActionData)
    (model : Model) : Prop :=
  (action = "create" ∨ action = "assertion") ∧
  truthy (dict_get action_data "skip_validation") = false ∧
  getattr_entities env action_data = Return model ∧
  model_searchable model = true.

End Vocabulary.

(** ** Relations between the populator before and after a call *)

Section Frames.

Context {World : Type}.

(** [s'] extends [s]: the mode is the same, the log, the error list, the
    lists of found and created entities and the trace of requests have
    only grown at their ends, and no key has left the registry. *)
Definition extends (s s' : Populator World) : Prop :=
  mode s' = mode s ∧
  logger s `prefix_of` logger s' ∧
  validation_errors s `prefix_of` validation_errors s' ∧
  found s `prefix_of` found s' ∧
  created s `prefix_of` created s' ∧
  requests s `prefix_of` requests s' ∧
  dom (registry s) ⊆ dom (registry s').

(** What a handler leaves alone: the mode, the error list and the
    registry are the business of [populate] and [validate]. *)
Definition same_bookkeeping (s s' : Populator World) : Prop :=
  mode s' = mode s ∧
  validation_errors s' = validation_errors s ∧
  registry s' = registry s.

(** Every run of [m] relates the populator before to the populator
    after, whether [m] returns or raises. *)
Definition respects {A} (R : relation (Populator World)) (m : M World A) : Prop :=
  ∀ s, R s (m s).2.

(** The requests issued since the trace had length [n]. *)
Definition requests_since (n : nat) (s : Populator World) : list Request :=
  drop n (requests s).

End Frames.

(** A request that reads and changes nothing. *)
Definition is_search (r : Request) : Prop :=
  match r with ReqSearch _ _ => True | _ => False end.

(** ** A small remote system to run the methods against *)

Module Demo.

(** An in-memory server: the stored entities, the next id to hand out,
    and whether the server answers at all. *)
Record server := mkServer {
  store : list Entity;
  next_id : Z;
  online : bool
}.

Definition unavailable : exn :=
  HTTPError "503 Server Error: Service Unavailable" "b'try again later'".

Definition not_found : exn :=
  HTTPError "404 Client Error: Not Found" "b'resource not found'".

(** The search predicate is matched against the [name] field. *)
Definition matches (m : Model) (q : SearchPredicate) (e : Entity) : bool :=
  bool_decide (ent_model e = m) && bool_decide (ent_fields e !! "name" = Some (VStr q)).

Definition same_entity (a b : Entity) : bool :=
  bool_decide (ent_model a = ent_model b) && bool_decide (ent_id a = ent_id b).

Definition search (m : Model) (q : SearchPredicate) (w : server)
    : Outcome (list Entity) * server :=
  if online w then (Return (List.filter (matches m q) (store w)), w)
  else (Raise unavailable, w).

Definition create (e : Entity) (w : server) : Outcome Entity * server :=
  if online w then
    let e' := {| ent_model := ent_model e; ent_id := VInt (next_id w);
                 ent_fields := ent_fields e |} in
    (Return e', mkServer (store w ++ [e']) (next_id w + 1) (online w))
  else (Raise unavailable, w).

(** The named fields of [e] overwrite those of the stored entity. *)
Definition patch (e : Entity) (names : list string) (old : Entity) : Entity :=
  {| ent_model := ent_model old; ent_id := ent_id old;
     ent_fields := filter (λ kv, kv.1 ∈ names) (ent_fields e) ∪ ent_fields old |}.

Definition update (e : Entity) (names : list string) (w : server)
    : Outcome Entity * server :=
  if online w then
    match List.find (same_entity e) (store w) with
    | Some old =>
        (Return (patch e names old),
         mkServer (List.map (λ x, if same_entity e x then patch e names x else x) (store w))
                  (next_id w) (online w))
    | None => (Raise not_found, w)
    end
  else (Raise unavailable, w).

Definition delete (e : Entity) (w : server) : Outcome unit * server :=
  if online w then
    match List.find (same_entity e) (store w) with
    | Some _ =>
        (Return tt,
         mkServer (List.filter (λ x, negb (same_entity e x)) (store w))
                  (next_id w) (online w))
    | None => (Raise not_found, w)
    end
  else (Raise unavailable, w).

Definition Organization : Model := mkModel "Organization" true.
Definition Ping : Model := mkModel "Ping" false.

Definition env : Env server :=
  {| nailgun := mkNailgun server search create update delete;
     entities := {[ "Organization" := Organization; "Ping" := Ping ]};
     str_action_data := λ d, "{...}";
     registry_key := λ d, match dict_get d "register" with
                          | VStr k => k
                          | _ => EmptyString end |}.

(** A fresh populator in front of a server. *)
Definition fresh (self_mode : string) (w : server) : Populator server :=
  mkPopulator self_mode [] [] ∅ [] [] [] w.

Definition empty_server : server := mkServer [] 1 true.
Definition offline_server : server := mkServer [] 1 false.

(** The actions the runs below use. *)
Definition create_org : ActionData :=
  {[ "model" := VStr "Organization"; "register" := VStr "org" ]}.
Definition acme : RenderedActionData := {[ "name" := VStr "acme" ]}.
Definition acme_1 : Entity := mkEntity Organization (VInt 1) acme.

Definition update_42 : ActionData :=
  {[ "model" := VStr "Organization"; "id" := VInt 42 ]}.
Definition rename_x : RenderedActionData := {[ "name" := VStr "x" ]}.
Definition org_42 : Entity :=
  mkEntity Organization (VInt 42) {[ "name" := VStr "old"; "label" := VStr "keep" ]}.
Definition server_42 : server := mkServer [org_42] 43 true.

Definition no_target : ActionData := {[ "model" := VStr "Organization" ]}.
Definition no_target_silent : ActionData :=
  {[ "model" := VStr "Organization"; "silent_errors" := VBool true ]}.

(** More actions and servers for the runs below. *)
Definition no_model_silent : ActionData := {[ "silent_errors" := VBool true ]}.
Definition find_ghost : ActionData :=
  {[ "model" := VStr "Organization"; "search_query" := VStr "name=ghost" ]}.
Definition with_id : RenderedActionData := {[ "id" := VInt 7; "name" := VStr "x" ]}.
Definition ping_action : ActionData := {[ "model" := VStr "Ping" ]}.
Definition server_acme : server := mkServer [acme_1] 2 true.

(** A client whose connection is refused: the search raises an exception
    that is not an [HTTPError]. *)
Definition refused : exn := RequestException "ConnectionError" "connection refused".
Definition refusing_env : Env server :=
  {| nailgun := mkNailgun server (λ _ _ w, (Raise refused, w)) create update delete;
     entities := entities env;
     str_action_data := str_action_data env;
     registry_key := registry_key env |}.

End Demo.


(** * Properties *)

Lemma append_assoc (a b c : string) : (a +:+ b) +:+ c = a +:+ (b +:+ c).
Proof.
  induction a as [|x a IH]; [done |].
  change (String x ((a +:+ b) +:+ c) = String x (a +:+ (b +:+ c))).
  by rewrite IH.
Qed.

Lemma contains_append_l (needle a b : string) :
  contains needle a → contains needle (a +:+ b).
Proof.
  intros (before & after & ->). exists before, (after +:+ b).
  by rewrite !append_assoc.
Qed.

Lemma contains_append_r (needle a b : string) :
  contains needle b → contains needle (a +:+ b).
Proof.
  intros (before & after & ->). exists (a +:+ before), after.
  by rewrite !append_assoc.
Qed.

Lemma truthy_dict_get_absent (d : gmap string pyval) (k : string) :
  d !! k = None → truthy (dict_get d k) = false.
Proof. unfold dict_get. by intros ->. Qed.

Lemma dict_keys_spec (d : gmap string pyval) (k : string) :
  k ∈ dict_keys d ↔ is_Some (d !! k).
Proof.
  unfold dict_keys. rewrite list_elem_of_fmap. split.
  - intros ([k' v] & -> & Hin). apply elem_of_map_to_list in Hin. by exists v.
  - intros [v Hv]. exists (k, v). split; [done | by apply elem_of_map_to_list].
Qed.

Lemma dict_keys_NoDup (d : gmap string pyval) : NoDup (dict_keys d).
Proof. apply NoDup_fst_map_to_list. Qed.

Section Properties.

Context {World : Type} (env : Env World).

Implicit Types (s : Populator World) (w : World) (e : Entity).
Implicit Types (action_data : ActionData) (rendered_action_data : RenderedActionData).
Implicit Types (search : SearchPredicate) (model : Model) (silent_errors : pyval).

(** ** What each step does to the populator *)

(** The search of [get_search_result], read off the client's answer. *)
Lemma get_search_result_run model search silent_errors s :
  get_search_result env model search silent_errors s =
    let '(o, w) := ng_search (nailgun env) model search (world s) in
    let s1 := after_call (ReqSearch model search) w s in
    match o with
    | Return [] => (Return None, s1)
    | Return [e] => (Return (Some e), s1)
    | Return (_ :: _ :: _) => (Raise (AmbiguousMatchError "search is not unique"), s1)
    | Raise x => (Raise x, s1)
    end.
Proof.
  unfold get_search_result, bind, call.
  destruct (ng_search _ _ _ _) as [[[|e [|e' l]]|x] w]; reflexivity.
Qed.

(** [add_and_log_error] raises, with nothing done, when the content of
    the response cannot be read; otherwise it returns with one log record
    and one error record more. *)
Lemma add_and_log_error_run action_data rendered_action_data search info s :
  add_and_log_error env action_data rendered_action_data search info s =
    if content_unreadable info then (Raise none_has_no_content, s)
    else
      let message := error_message_of env (mode s) action_data info in
      (Return tt,
       add_error (mkErrorRecord search message rendered_action_data action_data)
         (add_log (LogError message) s)).
Proof. unfold add_and_log_error. by destruct (content_unreadable info). Qed.

(** The content of the response of an [HTTPError] can be read. *)
Lemma content_readable_http x :
  is_HTTPError x = true → content_unreadable (Some (ErrExc x)) = false.
Proof. by destruct x. Qed.

(** ** [action_create] *)

(** C4. [action_create] begins with the unique search.  When the search
    yields one entity, that entity is appended to [found] and returned,
    and the search is the only request issued: nothing is created or
    changed, whatever the rendered fields are.  When the search yields
    nothing, an entity is constructed from the rendered data and a create
    request for it follows the search; the entity the create returns is
    appended to [created] and returned.  In every other case the search
    is the only request and both lists are as before. *)
Theorem action_create_search_then_create_if_absent
    rendered_action_data action_data search model silent_errors s :
  let '(o, s') :=
    action_create env rendered_action_data action_data search model silent_errors s in
  let '(answer, w1) := ng_search (nailgun env) model search (world s) in
  match answer with
  | Return [e] =>
      o = Return e ∧ found s' = found s ++ [e] ∧ created s' = created s ∧
      requests s' = requests s ++ [ReqSearch model search] ∧ world s' = w1
  | Return [] =>
      let entity := construct model rendered_action_data in
      ent_fields entity = rendered_action_data ∧
      requests s' = requests s ++ [ReqSearch model search; ReqCreate entity] ∧
      found s' = found s ∧
      match ng_create (nailgun env) entity w1 with
      | (Return e', w2) =>
          o = Return e' ∧ created s' = created s ++ [e'] ∧ world s' = w2
      | (Raise x, w2) =>
          o = Raise x ∧ created s' = created s ∧ world s' = w2
      end
  | _ =>
      (∃ x, o = Raise x) ∧ found s' = found s ∧ created s' = created s ∧
      requests s' = requests s ++ [ReqSearch model search] ∧ world s' = w1
  end.
Proof.
  unfold action_create, bind. rewrite get_search_result_run.
  destruct (ng_search _ _ _ _) as [[[|e [|e2 l]]|x] w1]; cbn.
  - unfold call; cbn.
    destruct (ng_create _ _ _) as [[e'|x] w2]; cbn;
      rewrite <- ?(assoc_L (++)); repeat split; done.
  - repeat split; done.
  - eauto 10.
  - eauto 10.
Qed.

(** C5. Running the same create action twice.  When the first search
    finds nothing, the creation succeeds, and the entity then shows up in
    the same search, the first run appends the created entity to
    [created] and nothing to [found]; the second run appends the entity
    it finds to [found] and nothing to [created], and issues no second
    create request.  The two entries carry the same id. *)
Theorem action_create_twice
    rendered_action_data action_data search model silent_errors s w1 e w2 e' w3 :
  ng_search (nailgun env) model search (world s) = (Return [], w1) →
  ng_create (nailgun env) (construct model rendered_action_data) w1 = (Return e, w2) →
  ng_search (nailgun env) model search w2 = (Return [e'], w3) →
  ent_id e' = ent_id e →
  ∃ s1 s2,
    action_create env rendered_action_data action_data search model silent_errors s
      = (Return e, s1) ∧
    action_create env rendered_action_data action_data search model silent_errors s1
      = (Return e', s2) ∧
    created s1 = created s ++ [e] ∧ found s1 = found s ∧
    created s2 = created s ++ [e] ∧ found s2 = found s ++ [e'] ∧
    ent_id e' = ent_id e ∧
    requests s2 = requests s ++
      [ReqSearch model search; ReqCreate (construct model rendered_action_data);
       ReqSearch model search].
Proof.
  intros Hs1 Hc Hs2 Hid.
  unfold action_create, bind. rewrite get_search_result_run, Hs1; cbn.
  unfold call; cbn. rewrite Hc; cbn.
  eexists _, _. split; [reflexivity |].
  rewrite get_search_result_run; cbn. rewrite Hs2; cbn.
  repeat split; try done.
  cbn. by rewrite <- !(assoc_L (++)).
Qed.

(** ** [action_update] and [action_delete] *)

(** C6. An update or delete whose [id] and [search_query] are both
    missing (an absent key reads as [None] through [get]; more generally,
    both values are false) raises its configuration error and leaves the
    populator, with its trace of requests and the remote world, exactly
    as it was: no search, update or delete has been issued. *)
Theorem update_delete_missing_id_and_search_query
    rendered_action_data action_data search model silent_errors s :
  truthy (dict_get action_data "id") = false →
  truthy (dict_get action_data "search_query") = false →
  action_update env rendered_action_data action_data search model silent_errors s
    = (Raise (RuntimeError "update: missing id or search_query"), s) ∧
  action_delete env rendered_action_data action_data search model silent_errors s
    = (Raise (RuntimeError "delete: missing id or search_query"), s).
Proof.
  intros Hid Hq. unfold action_update, action_delete.
  by rewrite Hid, Hq.
Qed.

(** C7. A successful [action_update] returns the entity it built from
    the resolved id and the rendered fields, and the request it ends with
    is the update of that entity naming the keys of the rendered data:
    each key once, and nothing but the keys.  The resolved id is the [id]
    of the action when it is given, and otherwise the id of the single
    entity the search returned; the search is then the only other request
    issued.  The update has really been made: the client was called on
    that entity and those keys, in the remote world as the lookup left
    it, it accepted the update, and the remote world afterwards is the
    one the client produced.  The lists of found and created entities,
    the error list and the registry are as before. *)
Theorem action_update_partial_update
    rendered_action_data action_data search model silent_errors s entity s' :
  action_update env rendered_action_data action_data search model silent_errors s
    = (Return entity, s') →
  let given := dict_get action_data "id" in
  let resolved_id :=
    if truthy given then given
    else match ng_search (nailgun env) model search (world s) with
         | (Return [e], _) => ent_id e
         | _ => VNone
         end in
  let lookups := if truthy given then [] else [ReqSearch model search] in
  let before_update :=
    if truthy given then world s
    else (ng_search (nailgun env) model search (world s)).2 in
  ent_model entity = model ∧
  ent_id entity = resolved_id ∧
  ent_fields entity = rendered_action_data ∧
  requests s' = requests s ++ lookups ++ [ReqUpdate entity (dict_keys rendered_action_data)] ∧
  (∀ k, k ∈ dict_keys rendered_action_data ↔ is_Some (rendered_action_data !! k)) ∧
  NoDup (dict_keys rendered_action_data) ∧
  (∃ answer,
     ng_update (nailgun env) entity (dict_keys rendered_action_data) before_update
       = (Return answer, world s')) ∧
  found s' = found s ∧ created s' = created s ∧
  validation_errors s' = validation_errors s ∧ registry s' = registry s.
Proof.
  intros Hrun given resolved_id lookups before_update.
  subst given resolved_id lookups before_update.
  assert (∀ k, k ∈ dict_keys rendered_action_data ↔ is_Some (rendered_action_data !! k))
    as Hkeys by apply dict_keys_spec.
  pose proof (dict_keys_NoDup rendered_action_data) as Hnodup.
  revert Hrun. unfold action_update, construct_with_id, bind, call.
  destruct (truthy (dict_get action_data "id")) eqn:Hid; cbn.
  - destruct (rendered_action_data !! "id"); cbn; [done |].
    destruct (ng_update _ _ _ _) as [[u|x] w] eqn:Hupdate; cbn; [| done].
    intros [= <- <-]; cbn. split_and!; try done. by exists u.
  - destruct (truthy (dict_get action_data "search_query")); cbn; [| done].
    rewrite get_search_result_run.
    destruct (ng_search _ _ _ _) as [[[|e [|e2 l]]|x] w1]; cbn; try done.
    destruct (rendered_action_data !! "id"); cbn; [done |].
    destruct (ng_update _ _ _ _) as [[u|x] w] eqn:Hupdate; cbn; [| done].
    intros [= <- <-]; cbn. rewrite <- (assoc_L (++)). split_and!; try done.
    by exists u.
Qed.


(** ** [populate] *)

(** When the handler raises an exception whose record can be built,
    [populate] files one error record; it then returns if the exception
    is an [HTTPError] or the action is silent, and raises the exception
    again otherwise. *)
Lemma populate_handler_raises
    rendered_action_data action_data search action model x s s1 :
  getattr_entities env action_data = Return model →
  action_method env action rendered_action_data action_data search model
    (silent_errors_of action_data) s = (Raise x, s1) →
  content_unreadable (Some (ErrExc x)) = false →
  populate env rendered_action_data action_data search action s =
    let r := error_record_for env action_data rendered_action_data search x s1 in
    (if is_HTTPError x || truthy (silent_errors_of action_data)
     then Return tt else Raise x,
     add_error r (add_log (LogError (err_message r)) s1)).
Proof.
  intros Hmodel Hrun Hread.
  unfold populate, resolve_model, bind, try_except. rewrite Hmodel.
  fold (silent_errors_of action_data). rewrite Hrun.
  destruct (is_HTTPError x).
  - by rewrite add_and_log_error_run, Hread.
  - unfold bind. rewrite add_and_log_error_run, Hread; cbn.
    by destruct (truthy (silent_errors_of action_data)).
Qed.

(** When the handler raises an exception whose response is [None],
    [add_and_log_error] raises in its turn: [populate] files nothing and
    raises that [AttributeError], whatever [silent_errors] is. *)
Lemma populate_handler_raises_unreadable
    rendered_action_data action_data search action model x s s1 :
  getattr_entities env action_data = Return model →
  action_method env action rendered_action_data action_data search model
    (silent_errors_of action_data) s = (Raise x, s1) →
  content_unreadable (Some (ErrExc x)) = true →
  populate env rendered_action_data action_data search action s
    = (Raise none_has_no_content, s1).
Proof.
  intros Hmodel Hrun Hread.
  unfold populate, resolve_model, bind, try_except. rewrite Hmodel.
  fold (silent_errors_of action_data). rewrite Hrun.
  destruct (is_HTTPError x).
  - by rewrite add_and_log_error_run, Hread.
  - unfold bind. by rewrite add_and_log_error_run, Hread.
Qed.

(** When the handler returns, [populate] files its result in the
    registry. *)
Lemma populate_handler_returns
    rendered_action_data action_data search action model result s s1 :
  getattr_entities env action_data = Return model →
  action_method env action rendered_action_data action_data search model
    (silent_errors_of action_data) s = (Return result, s1) →
  populate env rendered_action_data action_data search action s =
    (Return tt, set_registry (registry_key env action_data) result s1).
Proof.
  intros Hmodel Hrun.
  unfold populate, resolve_model, bind, try_except. rewrite Hmodel.
  fold (silent_errors_of action_data). by rewrite Hrun.
Qed.

(** C1, as the code has it.  An [HTTPError] raised by the handler never
    leaves [populate]: whatever [silent_errors] is, [populate] appends
    exactly one error record, carrying the action and the search, to
    [validation_errors], writes nothing to the registry, issues no
    further request, and returns to its caller. *)
Theorem populate_http_error_recorded_not_raised
    rendered_action_data action_data search action model x s s1 :
  getattr_entities env action_data = Return model →
  action_method env action rendered_action_data action_data search model
    (silent_errors_of action_data) s = (Raise x, s1) →
  is_HTTPError x = true →
  ∃ r s2,
    populate env rendered_action_data action_data search action s = (Return tt, s2) ∧
    validation_errors s2 = validation_errors s1 ++ [r] ∧
    err_search r = search ∧ err_action_data r = action_data ∧
    err_rendered_action_data r = rendered_action_data ∧
    registry s2 = registry s1 ∧ requests s2 = requests s1 ∧ world s2 = world s1.
Proof.
  intros Hmodel Hrun Hhttp.
  rewrite (populate_handler_raises _ _ _ _ _ _ _ _ Hmodel Hrun
             (content_readable_http _ Hhttp)), Hhttp; cbn.
  eexists _, _. by split_and!.
Qed.

(** The handlers of update and delete, reached through [populate], stop
    at the precondition on [id] and [search_query]. *)
Lemma action_method_missing_id_and_search_query
    rendered_action_data action_data search action model silent_errors s :
  action = "update" ∨ action = "delete" →
  truthy (dict_get action_data "id") = false →
  truthy (dict_get action_data "search_query") = false →
  action_method env action rendered_action_data action_data search model silent_errors s
    = (Raise (RuntimeError (action +:+ ": missing id or search_query")), s).
Proof.
  intros [-> | ->] Hid Hq; unfold action_method; cbn;
    unfold bind, action_update, action_delete;
    by rewrite Hid, Hq.
Qed.

(** C2, as the code has it.  For an update or delete whose [id] and
    [search_query] are both missing, [populate] appends exactly one error
    record and issues no request; the configuration error then reaches
    the caller when [silent_errors] is false, and [populate] returns
    normally when [silent_errors] is true. *)
Theorem populate_missing_id_and_search_query
    rendered_action_data action_data search action model s :
  action = "update" ∨ action = "delete" →
  getattr_entities env action_data = Return model →
  truthy (dict_get action_data "id") = false →
  truthy (dict_get action_data "search_query") = false →
  ∃ r s2,
    populate env rendered_action_data action_data search action s =
      (if truthy (silent_errors_of action_data) then Return tt
       else Raise (RuntimeError (action +:+ ": missing id or search_query")),
       s2) ∧
    validation_errors s2 = validation_errors s ++ [r] ∧
    err_action_data r = action_data ∧
    registry s2 = registry s ∧ requests s2 = requests s ∧ world s2 = world s.
Proof.
  intros Haction Hmodel Hid Hq.
  rewrite (populate_handler_raises _ _ _ _ _ _ _ _ Hmodel
             (action_method_missing_id_and_search_query _ _ _ _ _ _ _ Haction Hid Hq)
             eq_refl).
  cbn. eexists _, _. by split_and!.
Qed.

(** ** [validate] *)

(** Under [validation_runs], [validate] is its [try] statement. *)
Lemma validate_run rendered_action_data action_data search action model s :
  validation_runs env action action_data model →
  validate env rendered_action_data action_data search action s =
    match get_search_result env model search (silent_errors_of action_data) s with
    | (Raise x, s1) =>
        if is_HTTPError x then
          add_and_log_error env action_data rendered_action_data search (Some (ErrExc x)) s1
        else (Raise x, s1)
    | (Return (Some result), s1) =>
        (Return tt,
         set_registry (registry_key env action_data) (Some result)
           (add_found result
              (add_log (LogInfo "validate: Entity found: %s %s"
                          [LStr (model_name model); LVal (ent_id result)]) s1)))
    | (Return None, s1) =>
        add_and_log_error env action_data rendered_action_data search
          (Some (ErrStr "entity does not exist in the system"))
          (set_registry (registry_key env action_data) None
             (add_log (LogInfo "validate: result not found for query %s %s"
                         [LStr (model_name model); LActionData action_data]) s1))
    end.
Proof.
  intros (Haction & Hskip & Hmodel & Hsearchable).
  unfold validate. rewrite Hskip.
  replace (String.eqb action "create" || String.eqb action "assertion") with true
    by (by destruct Haction as [-> | ->]).
  cbn. unfold bind at 1, resolve_model. rewrite Hmodel, Hsearchable; cbn.
  unfold try_except. fold (silent_errors_of action_data).
  destruct (get_search_result _ _ _ _ _) as [[[result|]|x] s1]; try reflexivity.
  by destruct (is_HTTPError x).
Qed.

(** C8. When the unique search of [validate] finds no entity, [validate]
    returns without raising, the registry holds the absence marker [None]
    under the key of the action, and exactly one error record has been
    appended, whose message contains the words "does not exist". *)
Theorem validate_absent_entity
    rendered_action_data action_data search action model s w1 :
  validation_runs env action action_data model →
  ng_search (nailgun env) model search (world s) = (Return [], w1) →
  ∃ r s',
    validate env rendered_action_data action_data search action s = (Return tt, s') ∧
    registry s' = <[registry_key env action_data := None]> (registry s) ∧
    registry s' !! registry_key env action_data = Some None ∧
    validation_errors s' = validation_errors s ++ [r] ∧
    contains "does not exist" (err_message r) ∧
    err_action_data r = action_data ∧ err_search r = search.
Proof.
  intros Hruns Hsearch.
  rewrite (validate_run _ _ _ _ _ _ Hruns), get_search_result_run, Hsearch; cbn.
  eexists _, _. split_and!; try done.
  - apply lookup_insert_eq.
  - cbn. unfold error_message_of; cbn.
    apply contains_append_r, contains_append_r, contains_append_l.
    by exists "entity ", " in the system".
Qed.

(** C9. When the search of [validate] raises an [HTTPError], [validate]
    catches it whatever [silent_errors] is: it appends exactly one error
    record and returns.  Nothing else happens for that action: no
    registry entry is written, no entity is added to [found], and the
    search is the only request issued. *)
Theorem validate_http_error_recorded_not_raised
    rendered_action_data action_data search action model s x w1 :
  validation_runs env action action_data model →
  ng_search (nailgun env) model search (world s) = (Raise x, w1) →
  is_HTTPError x = true →
  ∃ r s',
    validate env rendered_action_data action_data search action s = (Return tt, s') ∧
    validation_errors s' = validation_errors s ++ [r] ∧
    err_action_data r = action_data ∧ err_search r = search ∧
    registry s' = registry s ∧ found s' = found s ∧ created s' = created s ∧
    requests s' = requests s ++ [ReqSearch model search] ∧ world s' = w1.
Proof.
  intros Hruns Hsearch Hhttp.
  destruct x as [text content| | | | | | |]; try done.
  rewrite (validate_run _ _ _ _ _ _ Hruns), get_search_result_run, Hsearch; cbn.
  eexists _, _. by split_and!.
Qed.

(** ** The registry *)

(** No handler touches the registry: only [populate] and [validate] write
    to it. *)
Lemma action_create_keeps_registry
    rendered_action_data action_data search model silent_errors s :
  registry (action_create env rendered_action_data action_data search model
              silent_errors s).2 = registry s.
Proof.
  unfold action_create, bind. rewrite get_search_result_run.
  destruct (ng_search _ _ _ _) as [[[|e [|e2 l]]|x] w1]; cbn; try done.
  unfold call; cbn. by destruct (ng_create _ _ _) as [[e'|x] w2].
Qed.

Lemma action_update_keeps_registry
    rendered_action_data action_data search model silent_errors s :
  registry (action_update env rendered_action_data action_data search model
              silent_errors s).2 = registry s.
Proof.
  unfold action_update, construct_with_id, bind, call.
  destruct (truthy (dict_get action_data "id")); cbn.
  - destruct (rendered_action_data !! "id"); cbn; [done |].
    by destruct (ng_update _ _ _ _) as [[u|x] w].
  - destruct (truthy (dict_get action_data "search_query")); cbn; [| done].
    rewrite get_search_result_run.
    destruct (ng_search _ _ _ _) as [[[|e [|e2 l]]|x] w1]; cbn; try done.
    destruct (rendered_action_data !! "id"); cbn; [done |].
    by destruct (ng_update _ _ _ _) as [[u|x] w].
Qed.

Lemma action_delete_keeps_registry
    rendered_action_data action_data search model silent_errors s :
  registry (action_delete env rendered_action_data action_data search model
              silent_errors s).2 = registry s.
Proof.
  unfold action_delete, bind, call.
  destruct (truthy (dict_get action_data "id")); cbn.
  - by destruct (ng_delete _ _ _) as [[u|x] w].
  - destruct (truthy (dict_get action_data "search_query")); cbn; [| done].
    rewrite get_search_result_run.
    destruct (ng_search _ _ _ _) as [[[|e [|e2 l]]|x] w1]; cbn; try done.
    by destruct (ng_delete _ _ _) as [[u|x] w].
Qed.

Lemma action_method_keeps_registry
    rendered_action_data action_data search action model silent_errors s :
  registry (action_method env action rendered_action_data action_data search model
              silent_errors s).2 = registry s.
Proof.
  unfold action_method, bind.
  destruct (String.eqb action "create").
  { pose proof (action_create_keeps_registry rendered_action_data action_data search
                  model silent_errors s) as H.
    by destruct (action_create _ _ _ _ _ _ _) as [[r|x] s1]. }
  destruct (String.eqb action "update").
  { pose proof (action_update_keeps_registry rendered_action_data action_data search
                  model silent_errors s) as H.
    by destruct (action_update _ _ _ _ _ _ _) as [[r|x] s1]. }
  destruct (String.eqb action "delete"); [| done].
  pose proof (action_delete_keeps_registry rendered_action_data action_data search
                model silent_errors s) as H.
  by destruct (action_delete _ _ _ _ _ _ _) as [[r|x] s1].
Qed.

(** C3, as the code has it.  [populate] writes the registry exactly once,
    under the key of the action, when the handler succeeds: the entity
    the handler returned, or [None] after a delete.  When the handler
    fails, [populate] leaves the registry as it was.  [validate] writes
    the entity when its search finds one, and the absence marker [None]
    when its search finds nothing. *)
Theorem registry_written_when_action_succeeds
    rendered_action_data action_data search action model s :
  getattr_entities env action_data = Return model →
  let key := registry_key env action_data in
  let populated := populate env rendered_action_data action_data search action s in
  let validated := validate env rendered_action_data action_data search action s in
  match action_method env action rendered_action_data action_data search model
          (silent_errors_of action_data) s with
  | (Return result, _) =>
      populated.1 = Return tt ∧ registry populated.2 = <[key := result]> (registry s)
  | (Raise _, _) => registry populated.2 = registry s
  end ∧
  (validation_runs env action action_data model →
   match ng_search (nailgun env) model search (world s) with
   | (Return [e], _) =>
       validated.1 = Return tt ∧ registry validated.2 = <[key := Some e]> (registry s)
   | (Return [], _) =>
       validated.1 = Return tt ∧ registry validated.2 = <[key := None]> (registry s)
   | _ => True
   end).
Proof.
  intros Hmodel key populated validated. subst key populated validated. split.
  - pose proof (action_method_keeps_registry rendered_action_data action_data search
                  action model (silent_errors_of action_data) s) as Hkeep.
    destruct (action_method _ _ _ _ _ _ _ _) as [[result|x] s1] eqn:Hrun; cbn in Hkeep.
    + rewrite (populate_handler_returns _ _ _ _ _ _ _ _ Hmodel Hrun); cbn.
      by rewrite Hkeep.
    + destruct (content_unreadable (Some (ErrExc x))) eqn:Hread.
      * by rewrite (populate_handler_raises_unreadable _ _ _ _ _ _ _ _ Hmodel Hrun Hread).
      * by rewrite (populate_handler_raises _ _ _ _ _ _ _ _ Hmodel Hrun Hread).
  - intros Hruns.
    rewrite (validate_run _ _ _ _ _ _ Hruns), get_search_result_run.
    by destruct (ng_search _ _ _ _) as [[[|e [|e2 l]]|x] w1].
Qed.

End Properties.

(** * Runs on the demo server *)

(** The same create action, twice, on a server that starts empty. *)
Lemma action_create_twice_witness :
  let s := Demo.fresh "populate" Demo.empty_server in
  let w := Demo.mkServer [Demo.acme_1] 2 true in
  (Demo.search Demo.Organization "acme" Demo.empty_server = (Return [], Demo.empty_server) ∧
   Demo.create (construct Demo.Organization Demo.acme) Demo.empty_server
     = (Return Demo.acme_1, w) ∧
   Demo.search Demo.Organization "acme" w = (Return [Demo.acme_1], w)) ∧
  ∃ s1 s2,
    action_create Demo.env Demo.acme Demo.create_org "acme" Demo.Organization
      (VBool false) s = (Return Demo.acme_1, s1) ∧
    action_create Demo.env Demo.acme Demo.create_org "acme" Demo.Organization
      (VBool false) s1 = (Return Demo.acme_1, s2) ∧
    created s2 = [Demo.acme_1] ∧ found s2 = [Demo.acme_1].
Proof.
  intros s w. split; [by split_and! |].
  destruct (action_create_twice Demo.env Demo.acme Demo.create_org "acme"
              Demo.Organization (VBool false) s
              Demo.empty_server Demo.acme_1 w Demo.acme_1 w)
    as (s1 & s2 & H1 & H2 & _ & _ & Hc & Hf & _); [reflexivity .. |].
  exists s1, s2. by split_and!.
Defined.

(** An update and a delete that name no target. *)
Lemma update_delete_missing_id_and_search_query_witness :
  let s := Demo.fresh "populate" Demo.server_42 in
  (Demo.no_target !! "id" = None ∧ Demo.no_target !! "search_query" = None) ∧
  action_update Demo.env Demo.rename_x Demo.no_target "x" Demo.Organization (VBool false) s
    = (Raise (RuntimeError "update: missing id or search_query"), s) ∧
  action_delete Demo.env Demo.rename_x Demo.no_target "x" Demo.Organization (VBool false) s
    = (Raise (RuntimeError "delete: missing id or search_query"), s).
Proof.
  intros s. split; [by split |].
  apply (update_delete_missing_id_and_search_query Demo.env Demo.rename_x Demo.no_target
           "x" Demo.Organization (VBool false) s); reflexivity.
Defined.

(** The update with explicit [id=42] and rendered data [{"name": "x"}]:
    the request names the field [name] alone, the handle returned has
    id 42, and on the server entity 42 has its new name and the label it
    had. *)
Lemma action_update_partial_update_witness :
  let s := Demo.fresh "populate" Demo.server_42 in
  let entity := mkEntity Demo.Organization (VInt 42) Demo.rename_x in
  let updated :=
    mkEntity Demo.Organization (VInt 42) {[ "name" := VStr "x"; "label" := VStr "keep" ]} in
  ∃ s',
    action_update Demo.env Demo.rename_x Demo.update_42 "x" Demo.Organization
      (VBool false) s = (Return entity, s') ∧
    ent_id entity = VInt 42 ∧
    requests s' = [ReqUpdate entity ["name"]] ∧
    world s' = Demo.mkServer [updated] 43 true.
Proof.
  intros s entity updated.
  exists (action_update Demo.env Demo.rename_x Demo.update_42 "x" Demo.Organization
            (VBool false) s).2.
  assert (action_update Demo.env Demo.rename_x Demo.update_42 "x" Demo.Organization
            (VBool false) s
          = (Return entity,
             (action_update Demo.env Demo.rename_x Demo.update_42 "x" Demo.Organization
                (VBool false) s).2)) as Hrun by reflexivity.
  split; [exact Hrun |].
  destruct (action_update_partial_update Demo.env _ _ _ _ _ _ _ _ Hrun)
    as (_ & Hid & _ & Hreq & _ & _ & (answer & Hupdate) & _).
  split_and!; [exact Hid | exact Hreq |].
  exact (eq_sym (f_equal snd Hupdate)).
Defined.

(** On the demo server that update leaves the field it does not name as
    it was. *)
Example update_42_leaves_label :
  let s := Demo.fresh "populate" Demo.server_42 in
  Demo.store (world (action_update Demo.env Demo.rename_x Demo.update_42 "x"
                       Demo.Organization (VBool false) s).2)
  = [mkEntity Demo.Organization (VInt 42)
       {[ "name" := VStr "x"; "label" := VStr "keep" ]}].
Proof. vm_compute. reflexivity. Qed.

(** A create action against a server that does not answer: the handler
    raises the [HTTPError] of the search, and [populate] returns. *)
Lemma populate_http_error_recorded_not_raised_witness :
  let s := Demo.fresh "populate" Demo.offline_server in
  let s1 := after_call (ReqSearch Demo.Organization "acme") Demo.offline_server s in
  (getattr_entities Demo.env Demo.create_org = Return Demo.Organization ∧
   action_method Demo.env "create" Demo.acme Demo.create_org "acme" Demo.Organization
     (silent_errors_of Demo.create_org) s = (Raise Demo.unavailable, s1) ∧
   is_HTTPError Demo.unavailable = true) ∧
  ∃ r s2,
    populate Demo.env Demo.acme Demo.create_org "acme" "create" s = (Return tt, s2) ∧
    validation_errors s2 = [r] ∧ registry s2 = ∅.
Proof.
  intros s s1. split; [by split_and! |].
  destruct (populate_http_error_recorded_not_raised Demo.env Demo.acme Demo.create_org
              "acme" "create" Demo.Organization Demo.unavailable s s1)
    as (r & s2 & Hrun & Herr & _ & _ & _ & Hreg & _); [reflexivity .. |].
  exists r, s2. by split_and!.
Defined.

(** C1 fails as it is stated: [silent_errors] is false and the handler
    raises an [HTTPError], yet [populate] returns normally instead of
    raising. *)
Lemma populate_http_error_does_not_halt :
  let s := Demo.fresh "populate" Demo.offline_server in
  truthy (silent_errors_of Demo.create_org) = false ∧
  (action_method Demo.env "create" Demo.acme Demo.create_org "acme" Demo.Organization
     (silent_errors_of Demo.create_org) s).1 = Raise Demo.unavailable ∧
  is_HTTPError Demo.unavailable = true ∧
  (populate Demo.env Demo.acme Demo.create_org "acme" "create" s).1 = Return tt ∧
  ¬ ∃ x s2, populate Demo.env Demo.acme Demo.create_org "acme" "create" s = (Raise x, s2).
Proof.
  intros s. split_and!; try reflexivity.
  intros (x & s2 & Hrun).
  assert ((populate Demo.env Demo.acme Demo.create_org "acme" "create" s).1 = Raise x)
    as Hfst by (by rewrite Hrun).
  vm_compute in Hfst. discriminate Hfst.
Qed.

(** An update that names no target, not silent: the error reaches the
    caller, and one error record has been filed. *)
Lemma populate_missing_id_and_search_query_witness :
  let s := Demo.fresh "populate" Demo.server_42 in
  (getattr_entities Demo.env Demo.no_target = Return Demo.Organization ∧
   truthy (dict_get Demo.no_target "id") = false ∧
   truthy (dict_get Demo.no_target "search_query") = false) ∧
  ∃ r s2,
    populate Demo.env Demo.rename_x Demo.no_target "x" "update" s
      = (Raise (RuntimeError "update: missing id or search_query"), s2) ∧
    validation_errors s2 = [r] ∧ requests s2 = [].
Proof.
  intros s. split; [by split_and! |].
  destruct (populate_missing_id_and_search_query Demo.env Demo.rename_x Demo.no_target
              "x" "update" Demo.Organization s)
    as (r & s2 & Hrun & Herr & _ & _ & Hreq & _); [by left | reflexivity .. |].
  exists r, s2. by split_and!.
Defined.

(** C2 fails as it is stated: with [silent_errors] true, the update that
    names no target raises its configuration error in the handler, and
    [populate] returns normally. *)
Lemma populate_missing_id_and_search_query_silenced :
  let s := Demo.fresh "populate" Demo.server_42 in
  Demo.no_target_silent !! "id" = None ∧
  Demo.no_target_silent !! "search_query" = None ∧
  truthy (silent_errors_of Demo.no_target_silent) = true ∧
  (action_update Demo.env Demo.rename_x Demo.no_target_silent "x" Demo.Organization
     (silent_errors_of Demo.no_target_silent) s).1
    = Raise (RuntimeError "update: missing id or search_query") ∧
  (populate Demo.env Demo.rename_x Demo.no_target_silent "x" "update" s).1 = Return tt ∧
  ¬ ∃ x s2,
      populate Demo.env Demo.rename_x Demo.no_target_silent "x" "update" s = (Raise x, s2).
Proof.
  intros s. split_and!; try reflexivity.
  intros (x & s2 & Hrun).
  assert ((populate Demo.env Demo.rename_x Demo.no_target_silent "x" "update" s).1
          = Raise x) as Hfst by (by rewrite Hrun).
  vm_compute in Hfst. discriminate Hfst.
Qed.

(** Validation of a create action whose entity is not on the server. *)
Lemma validate_absent_entity_witness :
  let s := Demo.fresh "validate" Demo.empty_server in
  (validation_runs Demo.env "create" Demo.create_org Demo.Organization ∧
   Demo.search Demo.Organization "acme" Demo.empty_server
     = (Return [], Demo.empty_server)) ∧
  ∃ r s',
    validate Demo.env Demo.acme Demo.create_org "acme" "create" s = (Return tt, s') ∧
    registry s' !! "org" = Some None ∧
    validation_errors s' = [r] ∧
    contains "does not exist" (err_message r).
Proof.
  intros s.
  assert (validation_runs Demo.env "create" Demo.create_org Demo.Organization) as Hruns.
  { split_and!; [by left | reflexivity ..]. }
  split; [by split |].
  destruct (validate_absent_entity Demo.env Demo.acme Demo.create_org "acme" "create"
              Demo.Organization s Demo.empty_server Hruns)
    as (r & s' & Hrun & _ & Hreg & Herr & Hmsg & _); [reflexivity |].
  exists r, s'. by split_and!.
Defined.

(** Validation of a create action against a server that does not answer,
    for an action that is not silent. *)
Lemma validate_http_error_recorded_not_raised_witness :
  let s := Demo.fresh "validate" Demo.offline_server in
  (validation_runs Demo.env "create" Demo.create_org Demo.Organization ∧
   Demo.search Demo.Organization "acme" Demo.offline_server
     = (Raise Demo.unavailable, Demo.offline_server) ∧
   is_HTTPError Demo.unavailable = true ∧
   truthy (silent_errors_of Demo.create_org) = false) ∧
  ∃ r s',
    validate Demo.env Demo.acme Demo.create_org "acme" "create" s = (Return tt, s') ∧
    validation_errors s' = [r] ∧
    requests s' = [ReqSearch Demo.Organization "acme"].
Proof.
  intros s.
  assert (validation_runs Demo.env "create" Demo.create_org Demo.Organization) as Hruns.
  { split_and!; [by left | reflexivity ..]. }
  split; [by split_and! |].
  destruct (validate_http_error_recorded_not_raised Demo.env Demo.acme Demo.create_org
              "acme" "create" Demo.Organization s Demo.unavailable Demo.offline_server Hruns)
    as (r & s' & Hrun & Herr & _ & _ & _ & _ & _ & Hreq & _); [reflexivity .. |].
  exists r, s'. by split_and!.
Defined.

(** C3 fails as it is stated: the handler of a create action fails on
    the search, [populate] records the failure and returns, and the
    registry has no entry under the key of the action. *)
Lemma populate_failure_leaves_no_registry_entry :
  let s := Demo.fresh "populate" Demo.offline_server in
  let key := registry_key Demo.env Demo.create_org in
  let populated := populate Demo.env Demo.acme Demo.create_org "acme" "create" s in
  (action_method Demo.env "create" Demo.acme Demo.create_org "acme" Demo.Organization
     (silent_errors_of Demo.create_org) s).1 = Raise Demo.unavailable ∧
  populated.1 = Return tt ∧
  length (validation_errors populated.2) = 1%nat ∧
  registry populated.2 !! key = None.
Proof. vm_compute. by split_and!. Qed.

(** A create action on the empty server: [populate] files the created
    entity under the key of the action, and [validate], run instead,
    files the absence marker. *)
Lemma registry_written_when_action_succeeds_witness :
  let s := Demo.fresh "populate" Demo.empty_server in
  getattr_entities Demo.env Demo.create_org = Return Demo.Organization ∧
  validation_runs Demo.env "create" Demo.create_org Demo.Organization ∧
  registry (populate Demo.env Demo.acme Demo.create_org "acme" "create" s).2
    = {[ "org" := Some Demo.acme_1 ]} ∧
  registry (validate Demo.env Demo.acme Demo.create_org "acme" "create" s).2
    = {[ "org" := None ]}.
Proof.
  intros s.
  assert (getattr_entities Demo.env Demo.create_org = Return Demo.Organization)
    as Hmodel by reflexivity.
  assert (validation_runs Demo.env "create" Demo.create_org Demo.Organization) as Hruns.
  { split_and!; [by left | reflexivity ..]. }
  destruct (registry_written_when_action_succeeds Demo.env Demo.acme Demo.create_org
              "acme" "create" Demo.Organization s Hmodel) as [Hpop Hval].
  specialize (Hval Hruns).
  split_and!; [exact Hmodel | exact Hruns | exact (proj2 Hpop) | exact (proj2 Hval)].
Defined.

(** * Further properties of the methods *)

(** ** Relations kept by every step *)

Section Respects.

Context {World : Type} (R : relation (Populator World)) `{!PreOrder R}.

Lemma respects_ret {A} (a : A) : respects R (ret a : M World A).
Proof. intros s. reflexivity. Qed.

Lemma respects_raise {A} (x : exn) : respects R (raise x : M World A).
Proof. intros s. reflexivity. Qed.

Lemma respects_bind {A B} (m : M World A) (k : A → M World B) :
  respects R m → (∀ a, respects R (k a)) → respects R (bind m k).
Proof.
  intros Hm Hk s. unfold bind. specialize (Hm s).
  destruct (m s) as [[a|x] s1]; cbn in *; [| done].
  by etrans; [| apply Hk].
Qed.

Lemma respects_try_except {A B} (body : M World A) (handler : exn → M World B)
    (orelse : A → M World B) :
  respects R body → (∀ x, respects R (handler x)) → (∀ a, respects R (orelse a)) →
  respects R (try_except body handler orelse).
Proof.
  intros Hb Hh Ho s. unfold try_except. specialize (Hb s).
  destruct (body s) as [[a|x] s1]; cbn in *; (etrans; [done |]); [apply Ho | apply Hh].
Qed.

Lemma respects_modify (f : Populator World → Populator World) :
  (∀ s, R s (f s)) → respects R (modify f).
Proof. intros Hf s. apply Hf. Qed.

Lemma respects_call {A} (r : Request) (op : World → Outcome A * World) :
  (∀ w s, R s (after_call r w s)) → respects R (call r op).
Proof. intros Hr s. unfold call. destruct (op (world s)) as [o w]. apply Hr. Qed.

End Respects.

(** One step of a proof that a method respects a relation. *)
Ltac respects_ret := solve [apply respects_ret; tc_solve].
Ltac respects_raise := solve [apply respects_raise; tc_solve].
Ltac respects_bind := apply respects_bind; try tc_solve.
Ltac respects_try_except := apply respects_try_except; try tc_solve.
Ltac respects_step :=
  first
    [ respects_ret
    | respects_raise
    | solve [apply respects_modify; try tc_solve; auto]
    | solve [apply respects_call; try tc_solve; auto]
    | respects_bind; [| intros ?]
    | respects_try_except; [| intros ? | intros ?]
    | match goal with
      | |- respects _ (match ?x with _ => _ end) => destruct x
      end ].

Section MethodsRespect.

Context {World : Type} (env : Env World).
Context (R : relation (Populator World)) `{!PreOrder R}.

(** What the handlers do to the populator. *)
Hypothesis R_log : ∀ r s, R s (add_log r s).
Hypothesis R_found : ∀ e s, R s (add_found e s).
Hypothesis R_created : ∀ e s, R s (add_created e s).
Hypothesis R_call : ∀ r (w : World) s, R s (after_call r w s).

Lemma get_search_result_respects model search silent_errors :
  respects R (get_search_result env model search silent_errors).
Proof using PreOrder0 R_call. unfold get_search_result. repeat respects_step. Qed.

Lemma action_create_respects rendered_action_data action_data search model silent_errors :
  respects R (action_create env rendered_action_data action_data search model silent_errors).
Proof using PreOrder0 R_log R_found R_created R_call.
  unfold action_create, log, append_found, append_created.
  respects_bind; [apply get_search_result_respects | intros ?].
  repeat respects_step.
Qed.

Lemma action_update_respects rendered_action_data action_data search model silent_errors :
  respects R (action_update env rendered_action_data action_data search model silent_errors).
Proof using PreOrder0 R_log R_call.
  unfold action_update, construct_with_id, log. cbv zeta.
  destruct (negb _ && negb _); [respects_raise |].
  respects_bind; [| intros ?; repeat respects_step].
  destruct (negb _); [| respects_ret].
  respects_bind; [apply get_search_result_respects | intros ?].
  repeat respects_step.
Qed.

Lemma action_delete_respects rendered_action_data action_data search model silent_errors :
  respects R (action_delete env rendered_action_data action_data search model silent_errors).
Proof using PreOrder0 R_log R_call.
  unfold action_delete, log. cbv zeta.
  destruct (negb _ && negb _); [respects_raise |].
  respects_bind; [| intros ?; repeat respects_step].
  destruct (negb _); [| respects_ret].
  respects_bind; [apply get_search_result_respects | intros ?].
  repeat respects_step.
Qed.

Lemma action_method_respects
    action rendered_action_data action_data search model silent_errors :
  respects R (action_method env action rendered_action_data action_data search model
                silent_errors).
Proof using PreOrder0 R_log R_found R_created R_call.
  unfold action_method.
  destruct (String.eqb action "create").
  { respects_bind; [apply action_create_respects | intros ?; respects_ret]. }
  destruct (String.eqb action "update").
  { respects_bind; [apply action_update_respects | intros ?; respects_ret]. }
  destruct (String.eqb action "delete"); [| respects_raise].
  respects_bind; [apply action_delete_respects | intros ?; respects_ret].
Qed.

(** What [populate] and [validate] do on top. *)
Hypothesis R_error : ∀ r s, R s (add_error r s).
Hypothesis R_registry : ∀ k v s, R s (set_registry k v s).

Lemma add_and_log_error_respects action_data rendered_action_data search info :
  respects R (add_and_log_error env action_data rendered_action_data search info).
Proof using PreOrder0 R_log R_error.
  intros s. rewrite add_and_log_error_run.
  destruct (content_unreadable info); cbn; [reflexivity |].
  etrans; [apply R_log | apply R_error].
Qed.

Lemma populate_respects rendered_action_data action_data search action :
  respects R (populate env rendered_action_data action_data search action).
Proof using All.
  unfold populate, resolve_model, add_to_registry.
  respects_bind; [intros s; reflexivity | intros model].
  respects_try_except; [apply action_method_respects | intros x | intros result].
  - destruct (is_HTTPError x); [apply add_and_log_error_respects |].
    respects_bind; [apply add_and_log_error_respects | intros _].
    repeat respects_step.
  - repeat respects_step.
Qed.

Lemma validate_respects rendered_action_data action_data search action :
  respects R (validate env rendered_action_data action_data search action).
Proof using All.
  unfold validate, resolve_model, add_to_registry, log, append_found. cbv zeta.
  destruct (negb _ || truthy _); [respects_ret |].
  respects_bind; [intros s; reflexivity | intros model].
  destruct (negb (model_searchable model)); [respects_raise |].
  respects_try_except; [apply get_search_result_respects | intros x | intros result].
  - destruct (is_HTTPError x); [apply add_and_log_error_respects | respects_raise].
  - destruct result as [result|].
    + repeat respects_step.
    + respects_bind; [repeat respects_step | intros _].
      respects_bind; [repeat respects_step | intros _].
      apply add_and_log_error_respects.
Qed.

End MethodsRespect.

Section FrameFacts.

Context {World : Type}.

#[global] Instance extends_preorder : PreOrder (@extends World).
Proof.
  split.
  - intros s. by split_and!.
  - intros s1 s2 s3 (? & ? & ? & ? & ? & ? & ?) (? & ? & ? & ? & ? & ? & ?).
    split_and!; [congruence | by etrans ..].
Qed.

#[global] Instance same_bookkeeping_preorder : PreOrder (@same_bookkeeping World).
Proof.
  split.
  - intros s. by split_and!.
  - intros s1 s2 s3 (? & ? & ?) (? & ? & ?). split_and!; congruence.
Qed.

Lemma extends_add_log r (s : Populator World) : extends s (add_log r s).
Proof. split_and!; cbn; try done. by apply prefix_app_r. Qed.

Lemma extends_add_error r (s : Populator World) : extends s (add_error r s).
Proof. split_and!; cbn; try done. by apply prefix_app_r. Qed.

Lemma extends_add_found e (s : Populator World) : extends s (add_found e s).
Proof. split_and!; cbn; try done. by apply prefix_app_r. Qed.

Lemma extends_add_created e (s : Populator World) : extends s (add_created e s).
Proof. split_and!; cbn; try done. by apply prefix_app_r. Qed.

Lemma extends_after_call r (w : World) (s : Populator World) :
  extends s (after_call r w s).
Proof. split_and!; cbn; try done. by apply prefix_app_r. Qed.

Lemma extends_set_registry k v (s : Populator World) : extends s (set_registry k v s).
Proof. split_and!; cbn; try done. rewrite dom_insert. set_solver. Qed.

Lemma same_bookkeeping_add_log r (s : Populator World) :
  same_bookkeeping s (add_log r s).
Proof. by split_and!. Qed.

Lemma same_bookkeeping_add_found e (s : Populator World) :
  same_bookkeeping s (add_found e s).
Proof. by split_and!. Qed.

Lemma same_bookkeeping_add_created e (s : Populator World) :
  same_bookkeeping s (add_created e s).
Proof. by split_and!. Qed.

Lemma same_bookkeeping_after_call r (w : World) (s : Populator World) :
  same_bookkeeping s (after_call r w s).
Proof. by split_and!. Qed.

End FrameFacts.

Section MoreProperties.

Context {World : Type} (env : Env World).

Implicit Types (s : Populator World) (w : World) (e : Entity) (x : exn).
Implicit Types (action_data : ActionData) (rendered_action_data : RenderedActionData).
Implicit Types (search : SearchPredicate) (model : Model) (silent_errors : pyval).

(** The handlers leave the mode, the error list and the registry alone. *)
Lemma action_method_same_bookkeeping
    action rendered_action_data action_data search model silent_errors s :
  same_bookkeeping s
    (action_method env action rendered_action_data action_data search model
       silent_errors s).2.
Proof.
  apply (action_method_respects env same_bookkeeping);
    auto using same_bookkeeping_add_log, same_bookkeeping_add_found,
      same_bookkeeping_add_created, same_bookkeeping_after_call.
Qed.

(** ** Invariants of [populate] and [validate] *)

(** X1. [populate] and [validate] only ever add: whatever the action and
    whether the call returns or raises, the mode is unchanged, the log,
    [validation_errors], [found], [created] and the trace of requests
    keep what they held and grow at the end, and every key of the
    registry is still a key. *)
Theorem populate_validate_append_only
    rendered_action_data action_data search action s :
  extends s (populate env rendered_action_data action_data search action s).2 ∧
  extends s (validate env rendered_action_data action_data search action s).2.
Proof.
  split.
  - apply (populate_respects env extends);
      auto using extends_add_log, extends_add_found, extends_add_created,
        extends_after_call, extends_add_error, extends_set_registry.
  - apply (validate_respects env extends);
      auto using extends_add_log, extends_add_found, extends_add_created,
        extends_after_call, extends_add_error, extends_set_registry.
Qed.

Lemma append_empty_r (a : string) : a +:+ EmptyString = a.
Proof.
  induction a as [|c a IH]; [done |].
  change (String c (a +:+ EmptyString) = String c a). by rewrite IH.
Qed.

Lemma contains_refl (t : string) : contains t t.
Proof. exists EmptyString, EmptyString. cbn. by rewrite append_empty_r. Qed.

(** The message of an error record contains the text of what was
    reported. *)
Lemma error_message_contains_text self_mode action_data (info : error_info) :
  contains (str_error_info info) (error_message_of env self_mode action_data (Some info)).
Proof.
  unfold error_message_of.
  destruct (error_info_truthy info) eqn:Htruthy.
  - assert (contains (str_error_info info)
              (self_mode +:+ ": " +:+ str_error_info info +:+ " "
                 +:+ str_action_data env action_data)) as Hin.
    { apply contains_append_r, contains_append_r, contains_append_l, contains_refl. }
    destruct (response_content info); [by apply contains_append_l | done].
  - destruct info as [x|t]; [done |]. cbn in Htruthy.
    apply negb_false_iff, String.eqb_eq in Htruthy as ->.
    by exists EmptyString, (self_mode +:+ ": " +:+ " " +:+ str_action_data env action_data).
Qed.

(** The lookup of the model raises no [HTTPError]. *)
Lemma getattr_entities_not_http action_data x :
  getattr_entities env action_data = Raise x → is_HTTPError x = false.
Proof.
  unfold getattr_entities.
  destruct (action_data !! "model") as [[| | |name]|]; try by intros [= <-].
  destruct (entities env !! name); by intros [= <-].
Qed.

(** The registry after [populate] and after [validate]: as before, or
    with one value written under the key of the action. *)
Lemma populate_registry_cases rendered_action_data action_data search action s :
  let after := registry (populate env rendered_action_data action_data search action s).2 in
  after = registry s ∨ ∃ v, after = <[registry_key env action_data := v]> (registry s).
Proof.
  cbn zeta.
  destruct (getattr_entities env action_data) as [model|x] eqn:Hmodel.
  - pose proof (action_method_same_bookkeeping action rendered_action_data action_data
                  search model (silent_errors_of action_data) s) as (_ & _ & Hreg).
    destruct (action_method _ _ _ _ _ _ _ _) as [[result|x] s1] eqn:Hrun; cbn in Hreg.
    + rewrite (populate_handler_returns _ _ _ _ _ _ _ _ _ Hmodel Hrun); cbn.
      right. exists result. by rewrite Hreg.
    + left. destruct (content_unreadable (Some (ErrExc x))) eqn:Hread.
      * by rewrite (populate_handler_raises_unreadable _ _ _ _ _ _ _ _ _ Hmodel Hrun Hread).
      * by rewrite (populate_handler_raises _ _ _ _ _ _ _ _ _ Hmodel Hrun Hread).
  - left. unfold populate, resolve_model, bind. by rewrite Hmodel.
Qed.

Lemma validate_registry_cases rendered_action_data action_data search action s :
  let after := registry (validate env rendered_action_data action_data search action s).2 in
  after = registry s ∨ ∃ v, after = <[registry_key env action_data := v]> (registry s).
Proof.
  cbn zeta. unfold validate, resolve_model, bind, try_except.
  destruct (negb _ || truthy _); [by left |].
  destruct (getattr_entities env action_data) as [model|x]; [| by left].
  destruct (negb (model_searchable model)); [by left |].
  rewrite get_search_result_run.
  destruct (ng_search _ _ _ _) as [[[|e [|e2 l]]|x] w1]; cbn.
  - right. by exists None.
  - right. by exists (Some e).
  - by left.
  - destruct (is_HTTPError x); [| by left].
    rewrite add_and_log_error_run. by destruct (content_unreadable _); left.
Qed.

(** X2. [populate] and [validate] touch the registry under the key of
    their own action only: the entry of every other key, present or not,
    is what it was. *)
Theorem registry_other_keys_untouched
    rendered_action_data action_data search action s (k : string) :
  k ≠ registry_key env action_data →
  registry (populate env rendered_action_data action_data search action s).2 !! k
    = registry s !! k ∧
  registry (validate env rendered_action_data action_data search action s).2 !! k
    = registry s !! k.
Proof.
  intros Hk. split.
  - destruct (populate_registry_cases rendered_action_data action_data search action s)
      as [-> | [v ->]]; [done | by rewrite lookup_insert_ne].
  - destruct (validate_registry_cases rendered_action_data action_data search action s)
      as [-> | [v ->]]; [done | by rewrite lookup_insert_ne].
Qed.

(** X3. No [HTTPError] ever leaves [populate] or [validate]: whatever
    the action, the client and the populator, an exception that either
    of them raises is of another class. *)
Theorem populate_validate_raise_no_http_error
    rendered_action_data action_data search action s :
  match (populate env rendered_action_data action_data search action s).1 with
  | Raise x => is_HTTPError x = false
  | Return _ => True
  end ∧
  match (validate env rendered_action_data action_data search action s).1 with
  | Raise x => is_HTTPError x = false
  | Return _ => True
  end.
Proof.
  split.
  - destruct (getattr_entities env action_data) as [model|x] eqn:Hmodel.
    + destruct (action_method env action rendered_action_data action_data search model
                  (silent_errors_of action_data) s) as [[result|x] s1] eqn:Hrun.
      * by rewrite (populate_handler_returns _ _ _ _ _ _ _ _ _ Hmodel Hrun).
      * destruct (content_unreadable (Some (ErrExc x))) eqn:Hread.
        { by rewrite (populate_handler_raises_unreadable _ _ _ _ _ _ _ _ _
                        Hmodel Hrun Hread). }
        rewrite (populate_handler_raises _ _ _ _ _ _ _ _ _ Hmodel Hrun Hread); cbn.
        destruct (is_HTTPError x) eqn:Hx; cbn; [done |].
        by destruct (truthy (silent_errors_of action_data)).
    + unfold populate, resolve_model, bind. rewrite Hmodel; cbn.
      by apply getattr_entities_not_http in Hmodel.
  - unfold validate, resolve_model, bind, try_except.
    destruct (negb _ || truthy _); [done |].
    destruct (getattr_entities env action_data) as [model|x] eqn:Hmodel; cbn.
    + destruct (negb (model_searchable model)); [done |].
      rewrite get_search_result_run.
      destruct (ng_search _ _ _ _) as [[[|e [|e2 l]]|x] w1]; cbn; try done.
      destruct (is_HTTPError x) eqn:Hx; [| done].
      rewrite add_and_log_error_run. by destruct (content_unreadable _).
    + by apply getattr_entities_not_http in Hmodel.
Qed.

(** ** [populate] *)

(** X4. When the model of the action cannot be looked up (the key
    [model] is missing, or [nailgun.entities] has no such attribute),
    [populate] raises the lookup's exception and leaves the populator
    exactly as it was: no error record is filed, and [silent_errors] does
    not apply, because the lookup comes before the [try]. *)
Theorem populate_unresolved_model rendered_action_data action_data search action x s :
  getattr_entities env action_data = Raise x →
  populate env rendered_action_data action_data search action s = (Raise x, s).
Proof. intros Hmodel. unfold populate, resolve_model, bind. by rewrite Hmodel. Qed.

(** X5. The error records of [populate].  After a handler that
    returned, [validation_errors] is what it was before the call.  After
    a handler that raised, it has grown by the one record of that
    exception, whatever happens next, unless the exception carries a
    response that is [None] (an exception of [requests] raised before any
    response, such as ConnectionError): [add_and_log_error] then raises
    while it builds the message, and nothing is filed. *)
Theorem populate_error_record_cases
    rendered_action_data action_data search action model s :
  getattr_entities env action_data = Return model →
  let errors :=
    validation_errors (populate env rendered_action_data action_data search action s).2 in
  match action_method env action rendered_action_data action_data search model
          (silent_errors_of action_data) s with
  | (Return _, _) => errors = validation_errors s
  | (Raise x, _) =>
      if content_unreadable (Some (ErrExc x)) then errors = validation_errors s
      else errors = validation_errors s
                      ++ [error_record_for env action_data rendered_action_data search x s]
  end.
Proof.
  intros Hmodel errors. subst errors.
  pose proof (action_method_same_bookkeeping action rendered_action_data action_data
                search model (silent_errors_of action_data) s) as (Hmode & Herr & _).
  destruct (action_method _ _ _ _ _ _ _ _) as [[result|x] s1] eqn:Hrun;
    cbn in Hmode, Herr.
  - by rewrite (populate_handler_returns _ _ _ _ _ _ _ _ _ Hmodel Hrun).
  - destruct (content_unreadable (Some (ErrExc x))) eqn:Hread.
    + by rewrite (populate_handler_raises_unreadable _ _ _ _ _ _ _ _ _ Hmodel Hrun Hread).
    + rewrite (populate_handler_raises _ _ _ _ _ _ _ _ _ Hmodel Hrun Hread); cbn.
      unfold error_record_for. by rewrite Herr, Hmode.
Qed.

(** X6. The exceptions of the handler that are not an [HTTPError].  One
    that has no attribute [response] is recorded once, with a message
    that contains its text; [populate] then returns when [silent_errors]
    is true, and raises that very exception again when it is false.  One
    whose response is [None] (an exception of [requests] raised before
    any response) is not recorded: [add_and_log_error] raises an
    [AttributeError], and that is what leaves [populate], whatever
    [silent_errors] is, with the populator as the handler left it. *)
Theorem populate_other_error_cases
    rendered_action_data action_data search action model x s s1 :
  getattr_entities env action_data = Return model →
  action_method env action rendered_action_data action_data search model
    (silent_errors_of action_data) s = (Raise x, s1) →
  is_HTTPError x = false →
  match response_of (ErrExc x) with
  | ResponseNone =>
      populate env rendered_action_data action_data search action s
        = (Raise none_has_no_content, s1)
  | _ =>
      ∃ r s2,
        populate env rendered_action_data action_data search action s =
          (if truthy (silent_errors_of action_data) then Return tt else Raise x, s2) ∧
        validation_errors s2 = validation_errors s1 ++ [r] ∧
        contains (str_exn x) (err_message r) ∧
        registry s2 = registry s1 ∧ requests s2 = requests s1 ∧ world s2 = world s1
  end.
Proof.
  intros Hmodel Hrun Hx.
  assert (content_unreadable (Some (ErrExc x))
          = match response_of (ErrExc x) with ResponseNone => true | _ => false end)
    as Hread by reflexivity.
  destruct (response_of (ErrExc x)) eqn:Hresponse.
  - rewrite (populate_handler_raises _ _ _ _ _ _ _ _ _ Hmodel Hrun Hread), Hx; cbn.
    eexists _, _. split_and!; try done.
    exact (error_message_contains_text (mode s1) action_data (ErrExc x)).
  - exact (populate_handler_raises_unreadable _ _ _ _ _ _ _ _ _ Hmodel Hrun Hread).
  - rewrite (populate_handler_raises _ _ _ _ _ _ _ _ _ Hmodel Hrun Hread), Hx; cbn.
    eexists _, _. split_and!; try done.
    exact (error_message_contains_text (mode s1) action_data (ErrExc x)).
Qed.

(** X7. An update by explicit id that the server accepts: what
    [populate] writes into the registry is the entity built from the id
    and the rendered data, not the entity the server answered with; no
    error record is filed. *)
Theorem populate_update_registers_local_entity
    rendered_action_data action_data search model s answer w1 :
  getattr_entities env action_data = Return model →
  truthy (dict_get action_data "id") = true →
  rendered_action_data !! "id" = None →
  let entity := mkEntity model (dict_get action_data "id") rendered_action_data in
  ng_update (nailgun env) entity (dict_keys rendered_action_data) (world s)
    = (Return answer, w1) →
  ∃ s',
    populate env rendered_action_data action_data search "update" s = (Return tt, s') ∧
    registry s' = <[registry_key env action_data := Some entity]> (registry s) ∧
    requests s' = requests s ++ [ReqUpdate entity (dict_keys rendered_action_data)] ∧
    validation_errors s' = validation_errors s ∧ world s' = w1.
Proof.
  intros Hmodel Hid Hnoid entity Hupdate. subst entity.
  erewrite populate_handler_returns; [| done |].
  2:{ unfold action_method; cbn. unfold bind, action_update, construct_with_id, bind, call.
      rewrite Hid, Hnoid; cbn. rewrite Hupdate; cbn. reflexivity. }
  eexists. by split_and!.
Qed.

(** X8. A delete by explicit id that the server accepts: [populate]
    issues exactly the delete of the entity with that id, files no error,
    and writes [None] into the registry under the key of the action. *)
Theorem populate_delete_registers_none
    rendered_action_data action_data search model s w1 :
  getattr_entities env action_data = Return model →
  truthy (dict_get action_data "id") = true →
  ng_delete (nailgun env) (mkEntity model (dict_get action_data "id") ∅) (world s)
    = (Return tt, w1) →
  ∃ s',
    populate env rendered_action_data action_data search "delete" s = (Return tt, s') ∧
    registry s' = <[registry_key env action_data := None]> (registry s) ∧
    requests s' = requests s ++ [ReqDelete (mkEntity model (dict_get action_data "id") ∅)] ∧
    validation_errors s' = validation_errors s ∧ world s' = w1.
Proof.
  intros Hmodel Hid Hdel.
  erewrite populate_handler_returns; [| done |].
  2:{ unfold action_method; cbn. unfold bind, action_delete, bind, call.
      rewrite Hid; cbn. rewrite Hdel; cbn. reflexivity. }
  eexists. by split_and!.
Qed.

(** ** [add_and_log_error] *)

(** X9. The message of an error record begins with the mode of the
    populator followed by a colon and a space, and contains the text of
    the action.  When an exception was reported it contains the text of
    the exception, and for an [HTTPError] it ends with the content of the
    response; when a plain message was reported it contains that message;
    when nothing was reported, or the empty string, the place of the
    message is empty. *)
Theorem error_message_content (self_mode : string) action_data (info : option error_info) :
  let message := error_message_of env self_mode action_data info in
  (∃ rest, message = self_mode +:+ ": " +:+ rest) ∧
  contains (str_action_data env action_data) message ∧
  match info with
  | Some (ErrExc (HTTPError text content)) =>
      contains text message ∧ ∃ front, message = front +:+ content
  | Some (ErrExc x) => contains (str_exn x) message
  | Some (ErrStr EmptyString) | None =>
      message = self_mode +:+ ": " +:+ " " +:+ str_action_data env action_data
  | Some (ErrStr t) => contains t message
  end.
Proof.
  intros message. subst message.
  assert (∀ middle,
            contains (str_action_data env action_data)
              (self_mode +:+ ": " +:+ middle +:+ " " +:+ str_action_data env action_data))
    as Haction.
  { intros middle. do 4 apply contains_append_r. apply contains_refl. }
  destruct info as [[x|t]|].
  - pose proof (error_message_contains_text self_mode action_data (ErrExc x)) as Htext.
    unfold error_message_of in *; cbn in *.
    destruct x; cbn in *; split_and!;
      first [ exact Htext | apply Haction | apply contains_append_l, Haction
            | by eexists | rewrite !append_assoc; by eexists ].
  - pose proof (error_message_contains_text self_mode action_data (ErrStr t)) as Htext.
    unfold error_message_of in *; cbn in *.
    destruct t as [|c t]; cbn in *; split_and!;
      first [ exact Htext | apply Haction | apply (Haction EmptyString)
            | by eexists | done ].
  - unfold error_message_of; cbn. split_and!; [by eexists | | done].
    apply (Haction EmptyString).
Qed.

(** ** [action_update] and [action_delete] *)


(** X11. An update or delete that has to search, and whose search finds
    nothing, raises "Cannot find entity" after the search: nothing is
    updated or deleted, and the search is the only request issued. *)
Theorem update_delete_cannot_find_entity
    rendered_action_data action_data search model silent_errors s w1 :
  truthy (dict_get action_data "id") = false →
  truthy (dict_get action_data "search_query") = true →
  ng_search (nailgun env) model search (world s) = (Return [], w1) →
  action_update env rendered_action_data action_data search model silent_errors s
    = (Raise (RuntimeError "update: Cannot find entity"),
       after_call (ReqSearch model search) w1 s) ∧
  action_delete env rendered_action_data action_data search model silent_errors s
    = (Raise (RuntimeError "delete: Cannot find entity"),
       after_call (ReqSearch model search) w1 s).
Proof.
  intros Hid Hq Hsearch.
  unfold action_update, action_delete, bind.
  rewrite Hid, Hq; cbn. by rewrite !get_search_result_run, Hsearch.
Qed.

(** X12. Rendered data that carries a field named [id] can never be
    applied by an update: the constructor is given [id] twice, so
    [action_update] always raises, and it has issued no update, only
    (at most) the search for the entity. *)
Theorem update_with_rendered_id_never_updates
    rendered_action_data action_data search model silent_errors s :
  is_Some (rendered_action_data !! "id") →
  ∃ x s',
    action_update env rendered_action_data action_data search model silent_errors s
      = (Raise x, s') ∧
    Forall is_search (requests_since (length (requests s)) s').
Proof.
  intros [v Hv].
  unfold action_update, construct_with_id, bind, requests_since.
  destruct (truthy (dict_get action_data "id")); cbn.
  - rewrite Hv. eexists _, _. split; [done |]. by rewrite drop_ge.
  - destruct (truthy (dict_get action_data "search_query")); cbn.
    + rewrite get_search_result_run.
      destruct (ng_search _ _ _ _) as [[[|e [|e2 l]]|x] w1]; cbn; rewrite ?Hv;
        (eexists _, _; split; [done |]); cbn;
        rewrite drop_app_length; by repeat constructor.
    + eexists _, _. split; [done |]. by rewrite drop_ge.
Qed.

(** ** [validate] *)

(** X13. [validate] does nothing for an action that is neither a create
    nor an assertion, and nothing for an action that sets
    [skip_validation]: it returns with the populator exactly as it was,
    without looking up the model and without any request. *)
Theorem validate_skipped rendered_action_data action_data search action s :
  (action ≠ "create" ∧ action ≠ "assertion") ∨
    truthy (dict_get action_data "skip_validation") = true →
  validate env rendered_action_data action_data search action s = (Return tt, s).
Proof.
  intros Hskip. unfold validate.
  replace (negb (String.eqb action "create" || String.eqb action "assertion")
           || truthy (dict_get action_data "skip_validation")) with true; [done |].
  destruct Hskip as [[Hc Ha] | ->]; [| by rewrite orb_true_r].
  apply String.eqb_neq in Hc, Ha. by rewrite Hc, Ha.
Qed.

(** X14. A validation that cannot start.  For a create or an assertion
    that does not skip validation, a model that cannot be looked up makes
    [validate] raise the lookup's exception, and a model that is not
    searchable makes it raise a [TypeError] naming the model; either way
    the populator is exactly as it was: no request has been issued and no
    error record filed, whatever [silent_errors] is. *)
Theorem validate_cannot_start rendered_action_data action_data search action s :
  (action = "create" ∨ action = "assertion") →
  truthy (dict_get action_data "skip_validation") = false →
  match getattr_entities env action_data with
  | Raise x =>
      validate env rendered_action_data action_data search action s = (Raise x, s)
  | Return model =>
      if model_searchable model then True
      else validate env rendered_action_data action_data search action s
             = (Raise (TypeError (model_name model +:+ " not searchable")), s)
  end.
Proof.
  intros Haction Hskip. unfold validate, resolve_model, bind. rewrite Hskip.
  replace (String.eqb action "create" || String.eqb action "assertion") with true
    by (by destruct Haction as [-> | ->]).
  cbn. destruct (getattr_entities env action_data) as [model|x]; [| done].
  by destruct (model_searchable model).
Qed.

(** X15. When the search of [validate] finds the entity, [validate]
    returns, the entity is appended to [found] and written to the
    registry under the key of the action, and no error record is filed;
    the search is the only request. *)
Theorem validate_found_entity
    rendered_action_data action_data search action model s e w1 :
  validation_runs env action action_data model →
  ng_search (nailgun env) model search (world s) = (Return [e], w1) →
  ∃ s',
    validate env rendered_action_data action_data search action s = (Return tt, s') ∧
    found s' = found s ++ [e] ∧
    registry s' !! registry_key env action_data = Some (Some e) ∧
    validation_errors s' = validation_errors s ∧ created s' = created s ∧
    requests s' = requests s ++ [ReqSearch model search] ∧ world s' = w1.
Proof.
  intros Hruns Hsearch.
  rewrite (validate_run _ _ _ _ _ _ _ Hruns), get_search_result_run, Hsearch; cbn.
  eexists. split_and!; try done. apply lookup_insert_eq.
Qed.

(** X16. Only an [HTTPError] is caught by [validate].  When the search
    raises an exception of another class, [validate] raises it to the
    caller: no error record is filed and nothing is written to the
    registry, whatever [silent_errors] is. *)
Theorem validate_other_error_raised
    rendered_action_data action_data search action model s x w1 :
  validation_runs env action action_data model →
  ng_search (nailgun env) model search (world s) = (Raise x, w1) →
  is_HTTPError x = false →
  validate env rendered_action_data action_data search action s
    = (Raise x, after_call (ReqSearch model search) w1 s).
Proof.
  intros Hruns Hsearch Hx.
  rewrite (validate_run _ _ _ _ _ _ _ Hruns), get_search_result_run, Hsearch; cbn.
  by rewrite Hx.
Qed.

(** X17. [validate] never creates, updates or deletes.  Either it issues
    no request and leaves the remote world alone, or its one request is
    the search for the action's entity on the action's model. *)
Theorem validate_only_searches rendered_action_data action_data search action s :
  let s' := (validate env rendered_action_data action_data search action s).2 in
  (requests s' = requests s ∧ world s' = world s) ∨
  (∃ model,
     getattr_entities env action_data = Return model ∧
     requests s' = requests s ++ [ReqSearch model search] ∧
     world s' = (ng_search (nailgun env) model search (world s)).2).
Proof.
  cbn zeta. unfold validate, resolve_model, bind, try_except.
  destruct (negb _ || truthy _); [by left |].
  destruct (getattr_entities env action_data) as [model|x]; [| by left].
  destruct (negb (model_searchable model)); [by left |].
  right. exists model. split; [done |].
  rewrite get_search_result_run.
  destruct (ng_search _ _ _ _) as [[[|e [|e2 l]]|x] w1]; cbn; try done.
  destruct (is_HTTPError x); [| done].
  rewrite add_and_log_error_run. by destruct (content_unreadable _).
Qed.

(** ** [populate], then [validate] *)

(** X18. A create action populated and then validated.  When the first
    search finds nothing, the creation succeeds, and the validation's
    search then finds one entity, both calls return, [created] gains the
    entity the server returned, [found] gains the entity the validation
    found, no error record is filed, and the registry ends with the
    validated entity under the key of the action. *)
Theorem populate_then_validate_create
    rendered_action_data action_data search model s w1 e w2 e' w3 :
  validation_runs env "create" action_data model →
  ng_search (nailgun env) model search (world s) = (Return [], w1) →
  ng_create (nailgun env) (construct model rendered_action_data) w1 = (Return e, w2) →
  ng_search (nailgun env) model search w2 = (Return [e'], w3) →
  ∃ s1 s2,
    populate env rendered_action_data action_data search "create" s = (Return tt, s1) ∧
    registry s1 !! registry_key env action_data = Some (Some e) ∧
    validate env rendered_action_data action_data search "create" s1 = (Return tt, s2) ∧
    registry s2 = <[registry_key env action_data := Some e']> (registry s) ∧
    created s2 = created s ++ [e] ∧ found s2 = found s ++ [e'] ∧
    validation_errors s2 = validation_errors s.
Proof.
  intros Hruns Hs1 Hc Hs2.
  pose proof Hruns as (_ & _ & Hmodel & _).
  erewrite populate_handler_returns; [| done |].
  2:{ unfold action_method; cbn. unfold bind, action_create, bind.
      rewrite get_search_result_run, Hs1; cbn. unfold call; cbn. rewrite Hc; cbn.
      reflexivity. }
  eexists _, _. split; [done |]. split; [apply lookup_insert_eq |].
  rewrite (validate_run _ _ _ _ _ _ _ Hruns), get_search_result_run; cbn.
  rewrite Hs2; cbn. split_and!; try done.
  cbn. by rewrite insert_insert_eq.
Qed.

End MoreProperties.

(** * Further runs on the demo server *)

Lemma registry_other_keys_untouched_witness :
  let s := set_registry "other" (Some Demo.org_42) (Demo.fresh "populate" Demo.empty_server) in
  "other" ≠ registry_key Demo.env Demo.create_org ∧
  registry (populate Demo.env Demo.acme Demo.create_org "acme" "create" s).2 !! "other"
    = Some (Some Demo.org_42) ∧
  registry (validate Demo.env Demo.acme Demo.create_org "acme" "create" s).2 !! "other"
    = Some (Some Demo.org_42).
Proof.
  intros s.
  assert ("other" ≠ registry_key Demo.env Demo.create_org) as Hk by (by vm_compute).
  split; [exact Hk |].
  exact (registry_other_keys_untouched Demo.env Demo.acme Demo.create_org "acme" "create"
           s "other" Hk).
Defined.

(** An action without a model, silent or not. *)
Lemma populate_unresolved_model_witness :
  let s := Demo.fresh "populate" Demo.empty_server in
  getattr_entities Demo.env Demo.no_model_silent = Raise (KeyError "model") ∧
  truthy (silent_errors_of Demo.no_model_silent) = true ∧
  populate Demo.env Demo.acme Demo.no_model_silent "acme" "create" s
    = (Raise (KeyError "model"), s).
Proof.
  intros s. split_and!; [reflexivity .. |].
  apply (populate_unresolved_model Demo.env Demo.acme Demo.no_model_silent "acme" "create"
           (KeyError "model") s).
  reflexivity.
Defined.

Lemma populate_error_record_cases_witness :
  let s := Demo.fresh "populate" Demo.offline_server in
  let s0 := Demo.fresh "populate" Demo.empty_server in
  getattr_entities Demo.env Demo.create_org = Return Demo.Organization ∧
  validation_errors (populate Demo.env Demo.acme Demo.create_org "acme" "create" s).2
    = [error_record_for Demo.env Demo.create_org Demo.acme "acme" Demo.unavailable s] ∧
  validation_errors
    (populate Demo.refusing_env Demo.acme Demo.create_org "acme" "create" s0).2 = [].
Proof.
  intros s s0. split_and!; [reflexivity | |].
  - exact (populate_error_record_cases Demo.env Demo.acme Demo.create_org
             "acme" "create" Demo.Organization s eq_refl).
  - exact (populate_error_record_cases Demo.refusing_env Demo.acme Demo.create_org
             "acme" "create" Demo.Organization s0 eq_refl).
Defined.

(** An update that names no target and is not silent: the error of the
    handler is the error [populate] raises.  A silent create over a
    refused connection: the [AttributeError] of [add_and_log_error] is
    what [populate] raises. *)
Lemma populate_other_error_cases_witness :
  let s := Demo.fresh "populate" Demo.server_42 in
  let x := RuntimeError "update: missing id or search_query" in
  let s1 := after_call (ReqSearch Demo.Organization "acme") Demo.server_42 s in
  (getattr_entities Demo.env Demo.no_target = Return Demo.Organization ∧
   action_method Demo.env "update" Demo.rename_x Demo.no_target "x" Demo.Organization
     (silent_errors_of Demo.no_target) s = (Raise x, s) ∧
   is_HTTPError x = false) ∧
  (∃ r s2,
     populate Demo.env Demo.rename_x Demo.no_target "x" "update" s = (Raise x, s2) ∧
     validation_errors s2 = [r] ∧ contains (str_exn x) (err_message r)) ∧
  (truthy (silent_errors_of Demo.no_target_silent) = true ∧
   action_method Demo.refusing_env "create" Demo.acme Demo.no_target_silent "acme"
     Demo.Organization (silent_errors_of Demo.no_target_silent) s
     = (Raise Demo.refused, s1) ∧
   is_HTTPError Demo.refused = false) ∧
  populate Demo.refusing_env Demo.acme Demo.no_target_silent "acme" "create" s
    = (Raise none_has_no_content, s1).
Proof.
  intros s x s1.
  split; [by split_and! |]. split; [| split; [by split_and! |]].
  - destruct (populate_other_error_cases Demo.env Demo.rename_x Demo.no_target "x"
                "update" Demo.Organization x s s)
      as (r & s2 & Hrun & Herr & Hmsg & _); [reflexivity .. |].
    exists r, s2. by split_and!.
  - exact (populate_other_error_cases Demo.refusing_env Demo.acme Demo.no_target_silent
             "acme" "create" Demo.Organization Demo.refused s s1
             eq_refl eq_refl eq_refl).
Defined.

(** The delete of entity 42. *)
Lemma populate_delete_registers_none_witness :
  let s := Demo.fresh "populate" Demo.server_42 in
  let gone := Demo.mkServer [] 43 true in
  (getattr_entities Demo.env Demo.update_42 = Return Demo.Organization ∧
   truthy (dict_get Demo.update_42 "id") = true ∧
   Demo.delete (mkEntity Demo.Organization (VInt 42) ∅) Demo.server_42 = (Return tt, gone)) ∧
  ∃ s',
    populate Demo.env ∅ Demo.update_42 "x" "delete" s = (Return tt, s') ∧
    registry s' = {[ EmptyString := None ]} ∧ world s' = gone.
Proof.
  intros s gone. split; [by split_and! |].
  destruct (populate_delete_registers_none Demo.env ∅ Demo.update_42 "x"
              Demo.Organization s gone)
    as (s' & Hrun & Hreg & _ & _ & Hworld); [reflexivity .. |].
  exists s'. by split_and!.
Defined.


(** An update and a delete of an organization that is not there. *)
Lemma update_delete_cannot_find_entity_witness :
  let s := Demo.fresh "populate" Demo.server_42 in
  (truthy (dict_get Demo.find_ghost "id") = false ∧
   truthy (dict_get Demo.find_ghost "search_query") = true ∧
   Demo.search Demo.Organization "ghost" Demo.server_42 = (Return [], Demo.server_42)) ∧
  (action_update Demo.env Demo.rename_x Demo.find_ghost "ghost" Demo.Organization
     (VBool false) s).1 = Raise (RuntimeError "update: Cannot find entity") ∧
  (action_delete Demo.env Demo.rename_x Demo.find_ghost "ghost" Demo.Organization
     (VBool false) s).1 = Raise (RuntimeError "delete: Cannot find entity").
Proof.
  intros s. split; [by split_and! |].
  destruct (update_delete_cannot_find_entity Demo.env Demo.rename_x Demo.find_ghost
              "ghost" Demo.Organization (VBool false) s Demo.server_42)
    as [Hupdate Hdelete]; [reflexivity .. |].
  by rewrite Hupdate, Hdelete.
Defined.

(** An update of entity 42 whose rendered data carries an id. *)
Lemma update_with_rendered_id_never_updates_witness :
  let s := Demo.fresh "populate" Demo.server_42 in
  is_Some (Demo.with_id !! "id") ∧
  ∃ x s',
    action_update Demo.env Demo.with_id Demo.update_42 "x" Demo.Organization
      (VBool false) s = (Raise x, s') ∧
    Forall is_search (requests_since (length (requests s)) s').
Proof.
  intros s.
  assert (is_Some (Demo.with_id !! "id")) as Hid by (by exists (VInt 7)).
  split; [exact Hid |].
  exact (update_with_rendered_id_never_updates Demo.env Demo.with_id Demo.update_42 "x"
           Demo.Organization (VBool false) s Hid).
Defined.

(** The validation of an update action. *)
Lemma validate_skipped_witness :
  let s := Demo.fresh "validate" Demo.offline_server in
  validate Demo.env Demo.rename_x Demo.update_42 "x" "update" s = (Return tt, s).
Proof.
  intros s.
  apply (validate_skipped Demo.env Demo.rename_x Demo.update_42 "x" "update" s).
  left. by split.
Defined.

(** The validation of a create action on a model without search. *)
Lemma validate_cannot_start_witness :
  let s := Demo.fresh "validate" Demo.empty_server in
  (truthy (dict_get Demo.ping_action "skip_validation") = false ∧
   getattr_entities Demo.env Demo.ping_action = Return Demo.Ping) ∧
  validate Demo.env ∅ Demo.ping_action "ping" "create" s
    = (Raise (TypeError "Ping not searchable"), s).
Proof.
  intros s. split; [by split |].
  exact (validate_cannot_start Demo.env ∅ Demo.ping_action "ping" "create" s
           (or_introl eq_refl) eq_refl).
Defined.

(** The validation of a create action whose entity is on the server. *)
Lemma validate_found_entity_witness :
  let s := Demo.fresh "validate" Demo.server_acme in
  (validation_runs Demo.env "create" Demo.create_org Demo.Organization ∧
   Demo.search Demo.Organization "acme" Demo.server_acme
     = (Return [Demo.acme_1], Demo.server_acme)) ∧
  ∃ s',
    validate Demo.env Demo.acme Demo.create_org "acme" "create" s = (Return tt, s') ∧
    found s' = [Demo.acme_1] ∧ registry s' !! "org" = Some (Some Demo.acme_1) ∧
    validation_errors s' = [].
Proof.
  intros s.
  assert (validation_runs Demo.env "create" Demo.create_org Demo.Organization) as Hruns.
  { split_and!; [by left | reflexivity ..]. }
  split; [by split |].
  destruct (validate_found_entity Demo.env Demo.acme Demo.create_org "acme" "create"
              Demo.Organization s Demo.acme_1 Demo.server_acme Hruns)
    as (s' & Hrun & Hfound & Hreg & Herr & _); [reflexivity |].
  exists s'. by split_and!.
Defined.

(** The validation of a create action over a refused connection. *)
Lemma validate_other_error_raised_witness :
  let s := Demo.fresh "validate" Demo.empty_server in
  (validation_runs Demo.refusing_env "create" Demo.create_org Demo.Organization ∧
   is_HTTPError Demo.refused = false) ∧
  validate Demo.refusing_env Demo.acme Demo.create_org "acme" "create" s
    = (Raise Demo.refused,
       after_call (ReqSearch Demo.Organization "acme") Demo.empty_server s).
Proof.
  intros s.
  assert (validation_runs Demo.refusing_env "create" Demo.create_org Demo.Organization)
    as Hruns.
  { split_and!; [by left | reflexivity ..]. }
  split; [by split |].
  apply (validate_other_error_raised Demo.refusing_env Demo.acme Demo.create_org "acme"
           "create" Demo.Organization s Demo.refused Demo.empty_server Hruns);
    reflexivity.
Defined.

(** A create action populated, then validated, on a server that starts
    empty. *)
Lemma populate_then_validate_create_witness :
  let s := Demo.fresh "populate" Demo.empty_server in
  let w := Demo.mkServer [Demo.acme_1] 2 true in
  (validation_runs Demo.env "create" Demo.create_org Demo.Organization ∧
   Demo.search Demo.Organization "acme" Demo.empty_server = (Return [], Demo.empty_server) ∧
   Demo.create (construct Demo.Organization Demo.acme) Demo.empty_server
     = (Return Demo.acme_1, w) ∧
   Demo.search Demo.Organization "acme" w = (Return [Demo.acme_1], w)) ∧
  ∃ s1 s2,
    populate Demo.env Demo.acme Demo.create_org "acme" "create" s = (Return tt, s1) ∧
    validate Demo.env Demo.acme Demo.create_org "acme" "create" s1 = (Return tt, s2) ∧
    registry s2 = {[ "org" := Some Demo.acme_1 ]} ∧
    created s2 = [Demo.acme_1] ∧ found s2 = [Demo.acme_1] ∧ validation_errors s2 = [].
Proof.
  intros s w.
  assert (validation_runs Demo.env "create" Demo.create_org Demo.Organization) as Hruns.
  { split_and!; [by left | reflexivity ..]. }
  split; [by split_and! |].
  destruct (populate_then_validate_create Demo.env Demo.acme Demo.create_org "acme"
              Demo.Organization s Demo.empty_server Demo.acme_1 w Demo.acme_1 w Hruns)
    as (s1 & s2 & Hpop & _ & Hval & Hreg & Hc & Hf & Herr); [reflexivity .. |].
  exists s1, s2. by split_and!.
Defined.

(** The update of entity 42: the server answers with the whole entity,
    the registry keeps the entity that was sent. *)
Lemma populate_update_registers_local_entity_witness :
  let s := Demo.fresh "populate" Demo.server_42 in
  let sent := mkEntity Demo.Organization (VInt 42) Demo.rename_x in
  let answer :=
    mkEntity Demo.Organization (VInt 42) {[ "name" := VStr "x"; "label" := VStr "keep" ]} in
  (getattr_entities Demo.env Demo.update_42 = Return Demo.Organization ∧
   truthy (dict_get Demo.update_42 "id") = true ∧
   Demo.rename_x !! "id" = None ∧
   (Demo.update sent ["name"] Demo.server_42).1 = Return answer) ∧
  ∃ s',
    populate Demo.env Demo.rename_x Demo.update_42 "x" "update" s = (Return tt, s') ∧
    registry s' = {[ EmptyString := Some sent ]} ∧ validation_errors s' = [].
Proof.
  intros s sent answer. split; [by split_and! |].
  destruct (populate_update_registers_local_entity Demo.env Demo.rename_x Demo.update_42
              "x" Demo.Organization s answer (Demo.mkServer [answer] 43 true))
    as (s' & Hrun & Hreg & _ & Herr & _); [reflexivity .. |].
  exists s'. by split_and!.
Defined.
